(** * Fluid expense tracker: the multi-source aggregation pipeline

    A shallow embedding of the Python sources

    - [fetchers/solana_fetcher.py]  (module [Solana]),
    - [fetchers/dune_fetcher.py]    (module [Dune]),
    - [fetchers/price_fetcher.py]   (module [Price]),
    - [utils/data_processor.py]     (module [Processor]),

    followed by the properties of the pipeline.

    Modelling conventions.
    - Python floats are idealised as rationals ([Q]); none of the properties
      below is about rounding.  Python integers are [Z].
    - A [datetime] is the record of calendar fields Python keeps; differences
      and comparisons go through its position on the time line ([to_micros]).
      Whether the time of a transfer carries a zone ([tzinfo]) is kept beside
      it; a zoned time is in UTC.
    - A pandas DataFrame is the list of its rows, a row being a record of the
      columns the code reads.
    - A function that performs I/O takes what the outside world answered
      (clock readings, HTTP replies, the cache file) as arguments and returns
      the new state of what it writes.
    - [try ... except] is modelled with the [result] type: the body evaluates
      to [Ok] or [Raise], the handler turns [Raise] into the handler's value.
    - [progress_callback] only displays text and is left out. *)

From Stdlib Require Import ZArith QArith List String Bool Lia.
From Stdlib Require Import Sorting.Mergesort Sorting.Sorted Sorting.Permutation.
From Stdlib Require Import Structures.Orders.
From Stdlib Require Structures.OrderedTypeEx.
Import ListNotations.

Local Open Scope string_scope.
Local Open Scope Z_scope.

(** ** Shared vocabulary *)

(** The outcome of a block of code that may raise; [msg] is [str(e)]. *)
Inductive result (A : Type) : Type :=
| Ok (a : A)
| Raise (msg : string).
Arguments Ok {A} a.
Arguments Raise {A} msg.

(** [x < y] on Python numbers. *)
Definition Qltb (x y : Q) : bool :=
  (Qnum x * Zpos (Qden y) <? Qnum y * Zpos (Qden x))%Z.

(** A Python dict with string keys, in insertion order. *)
Fixpoint dict_get {V : Type} (d : list (string * V)) (k : string) : option V :=
  match d with
  | [] => None
  | (k', v) :: rest => if String.eqb k' k then Some v else dict_get rest k
  end.

(** [d.get(k, default)] *)
Definition dict_get_default {V : Type} (d : list (string * V)) (k : string) (default : V) : V :=
  match dict_get d k with
  | Some v => v
  | None => default
  end.

(** [k in d] *)
Definition dict_mem {V : Type} (d : list (string * V)) (k : string) : bool :=
  match dict_get d k with
  | Some _ => true
  | None => false
  end.

(** [x in [s1, s2, ...]] on strings. *)
Definition str_in (x : string) (l : list string) : bool :=
  existsb (String.eqb x) l.

(** [sum] of a numeric column. *)
Definition Qsum (l : list Q) : Q := fold_right Qplus 0%Q l.
Definition Zsum (l : list Z) : Z := fold_right Z.add 0 l.

(** ** Dates and times *)

Module Datetime.

Record datetime : Type := mk_datetime {
  dt_year : Z;
  dt_month : Z;
  dt_day : Z;
  dt_hour : Z;
  dt_minute : Z;
  dt_second : Z;
  dt_microsecond : Z
}.

(** Days from 1970-01-01 to the given date of the proleptic Gregorian
    calendar. *)
Definition days_from_civil (y m d : Z) : Z :=
  let y' := if m <=? 2 then y - 1 else y in
  let era := y' / 400 in
  let yoe := y' - era * 400 in
  let mp := if 2 <? m then m - 3 else m + 9 in
  let doy := (153 * mp + 2) / 5 + d - 1 in
  let doe := yoe * 365 + yoe / 4 - yoe / 100 + doy in
  era * 146097 + doe - 719468.

(** Position on the time line, in microseconds since 1970-01-01T00:00:00. *)
Definition to_micros (t : datetime) : Z :=
  (((days_from_civil (dt_year t) (dt_month t) (dt_day t) * 24 + dt_hour t) * 60
    + dt_minute t) * 60 + dt_second t) * 1000000 + dt_microsecond t.

(** [(a - b).total_seconds()] *)
Definition total_seconds_between (a b : datetime) : Q :=
  Qmake (to_micros a - to_micros b) 1000000.

(** [a <= b] on timestamps. *)
Definition dt_leb (a b : datetime) : bool := to_micros a <=? to_micros b.

Definition dt_eqb (a b : datetime) : bool := to_micros a =? to_micros b.

(** [.dt.to_period('M').dt.to_timestamp()]: midnight of the first day of the
    timestamp's month. *)
Definition month_start (t : datetime) : datetime :=
  mk_datetime (dt_year t) (dt_month t) 1 0 0 0 0.

End Datetime.
Export Datetime.

(** The layout shared by the two cache files: a JSON object holding the time
    of the last write and the stored dataset.  [Corrupt] stands for every file
    whose reading raises inside the loader's [try] block (invalid JSON, a
    missing key, a date or a dataset that does not parse). *)
Inductive cache_file (A : Type) : Type :=
| Corrupt
| Entry (last_updated : datetime) (data : A).
Arguments Corrupt {A}.
Arguments Entry {A} last_updated data.

(** ** fetchers/solana_fetcher.py *)

Module Solana.

Definition MIN_VALUE_USD : Q := 1000.

Definition ADDRESS_TAGS : list (string * string) :=
  [ ("5AZYLkiU4SPYDeRMcPbPRPmiz2Ny85jWFeV4xmQsVBNo", "Fluid Team");
    ("HUBLSmfDxXxxzgg4KM6Q5onHVwBG5KeKjeA2BnvE5D9r", "Fluid Team");
    ("7b1zZUuae2F56e66GqpkKe1Tq1BK2ePRRuGGr8ahe2JB", "JUP Team");
    ("FH9bgRZrEGFA1d4859wSBdNnHgtU5ZDqFUPccHDnYQ3p", "Maple");
    ("DVBfCpHoAtVgcVLFHyUgXaWg5ZaKU8CkekXu23ZD4iod", "Gauntlet");
    ("fr6yQkDmWy6R6pecbUsxXaw6EvRJznZ2HsK5frQgud8", "USDG Team");
    ("8sjM83a4u2M8YZYshLGKzYxh1VHFfbgtaytwaoEg4bUJ", "Jito Team");
    ("8JmDPG5BFQ6gpUPJV9xBixYJLqTKCSNotkXksTmNsQfj", "Sky Team");
    ("62SJTxjWbyaPei1HPW9mFX7KMYCEp7Z9zwiL4hGa8WQv", "LBTC Team");
    ("EeQmNqm1RcQnee8LTyx6ccVG9FnR8TezQuw2JXq2LC1T", "Sanctum INF Team");
    ("41zCUJsKk6cMB94DDtm99qWmyMZfp4GkAhhuz4xTwePu", "PST Team");
    ("JANAjsZKJhtHF9PUF8cwjVp5oQjdcHYiGiFgc8TWQjp2", "Binance Campaign");
    ("3ssDYFbTpACkshGeYHMBovxB4aE2G6fbZNeVChi85J1k", "Binance Campaign");
    ("7s1da8DduuBFqGra5bJBjpnvL5E9mGzCuMk1Qkh4or2Z", "Liquidity Layer") ].

(** One vault of the price listing, as far as [get_sol_price] reads it:
    [supplyToken.symbol], and [float(supplyToken.price)] ([None] when the
    conversion raises). *)
Record Vault : Type := mk_vault {
  supply_symbol : option string;
  supply_price : option Q
}.

Fixpoint scan_vaults (vaults : list Vault) : result Q :=
  match vaults with
  | [] => Ok 150%Q
  | vault :: rest =>
      match supply_symbol vault with
      | Some sym =>
          if String.eqb sym "WSOL"
          then match supply_price vault with
               | Some price => Ok price
               | None => Raise "could not convert string to float"
               end
          else scan_vaults rest
      | None => scan_vaults rest
      end
  end.

(** [get_sol_price()]; the argument is the reply of the vault endpoint,
    [Raise] when the request or its decoding fails. *)
Definition get_sol_price (vault_api : result (list Vault)) : Q :=
  match vault_api with
  | Ok vaults =>
      match scan_vaults vaults with
      | Ok price => price
      | Raise _ => 150%Q
      end
  | Raise _ => 150%Q
  end.

(** A row of the upstream transfer history.  [amount], [token_decimals] and
    [value] are [None] when the key is absent; [time] is the result of
    [datetime.fromisoformat] on the row's text, [None] when it raises (which
    includes an absent key, read as the empty string). *)
Record RawTransfer : Type := mk_raw_tz {
  flow : string;
  from_address : string;
  to_address : string;
  token_address : string;
  token_decimals : option Z;
  raw_amount : option Z;
  value : option Q;
  time : option datetime;
  trans_id : string;
  raw_block_id : Z;
  time_zoned : bool     (* the text of [time] ends in Z or an offset *)
}.

(** A row whose time is given in UTC (ending in Z), as upstream sends it. *)
Definition mk_raw (flow from_address to_address token_address : string)
    (token_decimals raw_amount : option Z) (value : option Q) (time : option datetime)
    (trans_id : string) (raw_block_id : Z) : RawTransfer :=
  mk_raw_tz flow from_address to_address token_address token_decimals raw_amount value
    time trans_id raw_block_id true.

(** [metadata['tokens']]: token address to the token's description, of which
    only [token_symbol] is read. *)
Definition TokensMeta : Type := list (string * option string).

(** A classified transfer, the dict appended to [processed]. *)
Record Transaction : Type := mk_tx_tz {
  signature : string;
  timestamp : datetime;
  tx_type : string;
  token : string;
  amount : Q;
  value_usd : Q;
  counterparty : string;
  team : string;
  block_id : Z;
  timestamp_zoned : bool     (* [timestamp.tzinfo] is set *)
}.

(** A transfer with a zoned timestamp. *)
Definition mk_tx (signature : string) (timestamp : datetime) (tx_type token : string)
    (amount value_usd : Q) (counterparty team : string) (block_id : Z) : Transaction :=
  mk_tx_tz signature timestamp tx_type token amount value_usd counterparty team block_id
    true.

Definition tx_type_of (tx : RawTransfer) : string :=
  if String.eqb (flow tx) "in" then "Inflow" else "Outflow".

Definition counterparty_of (tx : RawTransfer) : string :=
  if String.eqb (flow tx) "in" then from_address tx else to_address tx.

Definition team_of (tx : RawTransfer) : string :=
  dict_get_default ADDRESS_TAGS (counterparty_of tx) "Unknown".

Definition token_symbol_of (tokens_meta : TokensMeta) (tx : RawTransfer) : string :=
  match dict_get tokens_meta (token_address tx) with
  | Some (Some sym) => sym
  | _ => "UNKNOWN"
  end.

(** [amount_raw / (10 ** decimals)] *)
Definition amount_of (tx : RawTransfer) : Q :=
  let amount_raw := match raw_amount tx with Some a => a | None => 0 end in
  let decimals := match token_decimals tx with Some d => d | None => 6 end in
  (inject_Z amount_raw / Qpower 10 decimals)%Q.

Definition value_usd_of (tokens_meta : TokensMeta) (sol_price : Q) (tx : RawTransfer) : Q :=
  let token_symbol := token_symbol_of tokens_meta tx in
  if str_in token_symbol ["USDC"; "USDT"; "USDS"; "USDG"; "EURC"]
  then (amount_of tx * 1)%Q
  else if str_in token_symbol ["SOL"; "WSOL"]
  then (amount_of tx * sol_price)%Q
  else match value tx with Some v => v | None => 0%Q end.

(** The dict built for a transfer that passed the filter. *)
Definition classify (tokens_meta : TokensMeta) (sol_price : Q) (tx : RawTransfer)
    (ts : datetime) : Transaction :=
  {| signature := trans_id tx;
     timestamp := ts;
     tx_type := tx_type_of tx;
     token := token_symbol_of tokens_meta tx;
     amount := amount_of tx;
     value_usd := value_usd_of tokens_meta sol_price tx;
     counterparty := counterparty_of tx;
     team := team_of tx;
     block_id := raw_block_id tx;
     timestamp_zoned := time_zoned tx |}.

(** The [for tx in raw_data] loop of [process_transactions]. *)
Fixpoint process_loop (tokens_meta : TokensMeta) (sol_price : Q)
    (raw_data : list RawTransfer) (processed : list Transaction)
    : result (list Transaction) :=
  match raw_data with
  | [] => Ok processed
  | tx :: rest =>
      if Qltb (value_usd_of tokens_meta sol_price tx) MIN_VALUE_USD
      then process_loop tokens_meta sol_price rest processed
      else match time tx with
           | None => Raise "Invalid isoformat string"
           | Some ts =>
               process_loop tokens_meta sol_price rest
                 (processed ++ [classify tokens_meta sol_price tx ts])
           end
  end.

(** [r] is the record of a row of [raw_data] that has a readable time and a
    value not below the threshold. *)
Definition kept_from (tokens_meta : TokensMeta) (sol_price : Q)
    (raw_data : list RawTransfer) (r : Transaction) : Prop :=
  exists tx ts,
    In tx raw_data /\ time tx = Some ts /\
    Qltb (value_usd_of tokens_meta sol_price tx) MIN_VALUE_USD = false /\
    r = classify tokens_meta sol_price tx ts.

(** [process_transactions(raw_data, metadata)]; [vault_api] is what the call
    of [get_sol_price] receives. *)
Definition process_transactions (raw_data : list RawTransfer) (tokens_meta : TokensMeta)
    (vault_api : result (list Vault)) : result (list Transaction) :=
  let sol_price := get_sol_price vault_api in
  process_loop tokens_meta sol_price raw_data [].

(** [load_cache()]: the file, when it exists and can be read, whatever its
    age; the clock is not consulted.  [last_updated] is handed back as it is
    stored, without being parsed; the model keeps to files in which it is the
    date [save_cache] wrote. *)
Definition load_cache (file : option (cache_file (list Transaction)))
    : option (list Transaction * datetime) :=
  match file with
  | None => None
  | Some Corrupt => None
  | Some (Entry last_updated transactions) => Some (transactions, last_updated)
  end.

(** [save_cache(transactions)] at clock reading [now]: the new file. *)
Definition save_cache (transactions : list Transaction) (now : datetime)
    : option (cache_file (list Transaction)) :=
  Some (Entry now transactions).

(** [clear_cache()]: the new file and the returned flag. *)
Definition clear_cache (file : option (cache_file (list Transaction)))
    : option (cache_file (list Transaction)) * bool :=
  match file with
  | Some _ => (None, true)
  | None => (None, false)
  end.

(** What the transfer endpoint answers to the request for one page. *)
Inductive solscan_reply : Type :=
| HttpError (msg : string)
| Reply (success : bool) (data : list RawTransfer) (tokens_meta : TokensMeta).

(** Everything outside the process that a fetch depends on. *)
Record World : Type := mk_world {
  api_key : bool;                              (* SOLSCAN_API_KEY is set *)
  solscan : nat -> solscan_reply;              (* reply to the request for a page *)
  vault_api : nat -> result (list Vault);      (* price listing while a page is processed *)
  clock : datetime                             (* [datetime.now()] when the cache is written *)
}.

(** [fetch_from_solscan(page)]: (data, metadata, success, error). *)
Definition fetch_from_solscan (w : World) (page : nat)
    : list RawTransfer * TokensMeta * bool * option string :=
  if negb (api_key w) then ([], [], false, Some "SOLSCAN_API_KEY not found")
  else match solscan w page with
       | HttpError msg => ([], [], false, Some msg)
       | Reply false _ _ => ([], [], false, Some "API returned success=false")
       | Reply true data tokens_meta => (data, tokens_meta, true, None)
       end.

(** How the [for page in range(1, max_pages + 1)] loop is left. *)
Inductive loop_exit : Type :=
| PageFailed (error : option string)     (* [return [], False, error] *)
| Raised (msg : string)                  (* an exception left the loop *)
| Finished (all_transactions : list Transaction).   (* range exhausted, or [break] *)

Fixpoint fetch_pages (w : World) (page : nat) (pages_left : nat)
    (all_transactions : list Transaction) : loop_exit :=
  match pages_left with
  | O => Finished all_transactions
  | S pages_left' =>
      let '(raw_data, tokens_meta, success, error) := fetch_from_solscan w page in
      if negb success then PageFailed error
      else match raw_data with
           | [] => Finished all_transactions
           | _ :: _ =>
               match process_transactions raw_data tokens_meta (vault_api w page) with
               | Raise msg => Raised msg
               | Ok processed =>
                   fetch_pages w (S page) pages_left' (all_transactions ++ processed)
               end
           end
  end.

(** [fetch_all_transactions(max_pages=...)]: the returned triple
    (transactions, success, error) and the cache file afterwards. *)
Definition fetch_all_transactions (max_pages : nat) (w : World)
    (file : option (cache_file (list Transaction)))
    : (list Transaction * bool * option string) * option (cache_file (list Transaction)) :=
  match load_cache file with
  | Some (cached_first :: cached_rest, _) => ((cached_first :: cached_rest, true, None), file)
  | _ =>
      match fetch_pages w 1 max_pages [] with
      | PageFailed error => (([], false, error), file)
      | Raised msg => (([], false, Some msg), file)
      | Finished all_transactions =>
          ((all_transactions, true, None), save_cache all_transactions (clock w))
      end
  end.

(** The cache answers the fetch: [load_cache] returned a non-empty list. *)
Definition cache_hit (file : option (cache_file (list Transaction))) : bool :=
  match load_cache file with
  | Some (_ :: _, _) => true
  | _ => false
  end.

(** What one iteration of the loop appends for [page], when the page request
    succeeds with at least one row and the rows are processed without an
    exception. *)
Definition page_processed (w : World) (page : nat) : option (list Transaction) :=
  match fetch_from_solscan w page with
  | (tx :: rest, tokens_meta, true, _) =>
      match process_transactions (tx :: rest) tokens_meta (vault_api w page) with
      | Ok processed => Some processed
      | Raise _ => None
      end
  | _ => None
  end.

(** The processed rows of the [n] pages from [page] on, in page order. *)
Fixpoint collected (w : World) (page : nat) (n : nat) : list Transaction :=
  match n with
  | O => []
  | S n' =>
      match page_processed w page with
      | Some processed => processed ++ collected w (S page) n'
      | None => collected w (S page) n'
      end
  end.

(** The dataset the specification expects in the cache: every row the
    transfer endpoint returned for the [n] pages from [page] on, before any
    classification or filtering, up to the first empty or failed page. *)
Fixpoint spec_upstream_transfers (w : World) (page : nat) (n : nat) : list RawTransfer :=
  match n with
  | O => []
  | S n' =>
      match fetch_from_solscan w page with
      | (tx :: rest, _, true, _) => (tx :: rest) ++ spec_upstream_transfers w (S page) n'
      | _ => []
      end
  end.

(** The frame built by [aggregate_monthly_expenses]. *)
Module Monthly.
Record MonthlyRow : Type := mk_monthly {
  month : datetime;
  token : string;
  total_amount : Q;
  total_usd : Q;
  num_transactions : Z;
  chain : string;
  source : string
}.
End Monthly.

(** The group key of [groupby(['month', 'token'])]. *)
Definition group_key (t : Transaction) : datetime * string :=
  (month_start (timestamp t), token t).

Definition key_compare (a b : datetime * string) : comparison :=
  match Z.compare (to_micros (fst a)) (to_micros (fst b)) with
  | Eq => String.compare (snd a) (snd b)
  | c => c
  end.

Definition key_eqb (a b : datetime * string) : bool :=
  match key_compare a b with Eq => true | _ => false end.

Fixpoint insert_key (k : datetime * string) (keys : list (datetime * string))
    : list (datetime * string) :=
  match keys with
  | [] => [k]
  | k' :: rest =>
      match key_compare k k' with
      | Lt => k :: keys
      | Eq => keys
      | Gt => k' :: insert_key k rest
      end
  end.

(** The distinct group keys, in increasing order (groupby sorts its keys). *)
Definition group_keys (df : list Transaction) : list (datetime * string) :=
  fold_right insert_key [] (map group_key df).

(** The rows of one group. *)
Definition group_rows (df : list Transaction) (k : datetime * string) : list Transaction :=
  filter (fun t => key_eqb (group_key t) k) df.

(** [.agg({'amount': 'sum', 'value_usd': 'sum', 'signature': 'count'})] on one
    group, with the two constant columns added. *)
Definition monthly_row (df : list Transaction) (k : datetime * string) : Monthly.MonthlyRow :=
  let g := group_rows df k in
  {| Monthly.month := fst k;
     Monthly.token := snd k;
     Monthly.total_amount := Qsum (map amount g);
     Monthly.total_usd := Qsum (map value_usd g);
     Monthly.num_transactions := Z.of_nat (List.length g);
     Monthly.chain := "solana";
     Monthly.source := "Solana" |}.

Definition groupby_month_token (df : list Transaction) : list Monthly.MonthlyRow :=
  map (monthly_row df) (group_keys df).

(** The [timestamp] column holds both zoned and zone-less datetimes, on which
    [pd.to_datetime] raises. *)
Definition mixed_zones (df : list Transaction) : bool :=
  existsb timestamp_zoned df && existsb (fun t => negb (timestamp_zoned t)) df.

Definition is_outflow (t : Transaction) : bool := String.eqb (tx_type t) "Outflow".
Definition not_usdc (t : Transaction) : bool := negb (String.eqb (token t) "USDC").

(** A transfer that passes both filters of [aggregate_monthly_expenses]. *)
Definition is_expense (t : Transaction) : bool := is_outflow t && not_usdc t.

(** [row] carries the sums and the count of [group]. *)
Definition aggregates (row : Monthly.MonthlyRow) (group : list Transaction) : Prop :=
  Monthly.total_amount row = Qsum (map amount group) /\
  Monthly.total_usd row = Qsum (map value_usd group) /\
  Monthly.num_transactions row = Z.of_nat (List.length group).

(** The pair a row of the monthly frame was grouped under. *)
Definition row_key (row : Monthly.MonthlyRow) : datetime * string :=
  (Monthly.month row, Monthly.token row).

(** The body of [aggregate_monthly_expenses] after the call of
    [fetch_all_transactions], whose returned triple is the argument.  The
    month column is computed on the filtered frame; when its timestamps mix
    zoned and zone-less values the conversion raises and the handler reports
    the failure. *)
Definition aggregate_fetched (fetched : list Transaction * bool * option string)
    : list Monthly.MonthlyRow * bool * option string :=
  let '(transactions, success, error) := fetched in
  if negb success then ([], false, error)
  else match transactions with
       | [] => ([], true, Some "No transactions found")
       | _ :: _ =>
           let df := filter is_outflow transactions in
           let df := filter not_usdc df in
           match df with
           | [] => ([], true, Some "No non-USDC outflows found")
           | _ :: _ =>
               if mixed_zones df
               then ([], false, Some "Cannot mix tz-aware with tz-naive values")
               else (groupby_month_token df, true, None)
           end
       end.

(** [aggregate_monthly_expenses()]: the returned triple (frame, success, error)
    and the cache file afterwards. *)
Definition aggregate_monthly_expenses (max_pages : nat) (w : World)
    (file : option (cache_file (list Transaction)))
    : (list Monthly.MonthlyRow * bool * option string) * option (cache_file (list Transaction)) :=
  let '(fetched, file') := fetch_all_transactions max_pages w file in
  (aggregate_fetched fetched, file').

End Solana.

(** ** fetchers/dune_fetcher.py *)

Module Dune.

Definition CACHE_TTL_MINUTES : Q := 60.

(** A row of the monthly claims frame. *)
Record EvmRow : Type := mk_evm {
  month : datetime;
  chain : string;
  total_claims : Z;
  total_fluid_claimed : Q;
  source : string
}.

(** [load_cache()] at clock reading [now]. *)
Definition load_cache (file : option (cache_file (list EvmRow))) (now : datetime)
    : option (list EvmRow * datetime) :=
  match file with
  | None => None
  | Some Corrupt => None
  | Some (Entry last_updated data) =>
      let age_minutes := (total_seconds_between now last_updated / 60)%Q in
      if Qltb age_minutes CACHE_TTL_MINUTES
      then match data with
           | [] => None       (* no [month] column: KeyError, caught *)
           | _ :: _ => Some (data, last_updated)
           end
      else None
  end.

(** [save_cache(df)] at clock reading [now]: the new file. *)
Definition save_cache (df : list EvmRow) (now : datetime)
    : option (cache_file (list EvmRow)) :=
  Some (Entry now df).

Definition clear_cache (file : option (cache_file (list EvmRow)))
    : option (cache_file (list EvmRow)) * bool :=
  match file with
  | Some _ => (None, true)
  | None => (None, false)
  end.

(** A row of the query result.  The three columns that the code converts
    carry the outcome of their conversion: [pd.to_datetime] on [month],
    [astype(int)] on [total_claims], [astype(float)] on
    [total_fluid_claimed]; [Raise] holds the message of the exception (an
    absent key included). *)
Record QueryRow : Type := mk_query_row {
  row_month : result datetime;
  row_chain : string;
  row_total_claims : result Z;
  row_total_fluid_claimed : result Q
}.

(** The conversion of one column: the values of all rows, or the exception of
    the first row that fails. *)
Fixpoint convert_column {A : Type} (column : QueryRow -> result A)
    (rows : list QueryRow) : result (list A) :=
  match rows with
  | [] => Ok []
  | row :: rest =>
      match column row with
      | Raise msg => Raise msg
      | Ok v =>
          match convert_column column rest with
          | Raise msg => Raise msg
          | Ok vs => Ok (v :: vs)
          end
      end
  end.

(** The frame assembled from the converted columns, with the [source] column
    added. *)
Fixpoint assemble (chains : list string) (months : list datetime) (claims : list Z)
    (claimed : list Q) : list EvmRow :=
  match chains, months, claims, claimed with
  | c :: chains', m :: months', n :: claims', q :: claimed' =>
      mk_evm m c n q "EVM" :: assemble chains' months' claims' claimed'
  | _, _, _, _ => []
  end.

(** The statements from [pd.DataFrame(...)] to [df['source'] = 'EVM']: the
    columns are converted one after the other, [month] first. *)
Definition build_frame (rows : list QueryRow) : result (list EvmRow) :=
  match convert_column row_month rows with
  | Raise msg => Raise msg
  | Ok months =>
      match convert_column row_total_claims rows with
      | Raise msg => Raise msg
      | Ok claims =>
          match convert_column row_total_fluid_claimed rows with
          | Raise msg => Raise msg
          | Ok claimed => Ok (assemble (map row_chain rows) months claims claimed)
          end
      end
  end.

(** [fetch_dune_monthly_expenses()]: the returned triple (frame, success,
    error) and the cache file afterwards.  [api_key] tells whether
    DUNE_API_KEY is set, [now] is the clock when the cache is read,
    [dune_api] the rows of the latest query result ([Raise] when the client
    raises), [now'] the clock when the cache is written. *)
Definition fetch_dune_monthly_expenses (api_key : bool)
    (file : option (cache_file (list EvmRow))) (now : datetime)
    (dune_api : result (list QueryRow)) (now' : datetime)
    : (list EvmRow * bool * option string) * option (cache_file (list EvmRow)) :=
  match load_cache file now with
  | Some (cached_df, _) => ((cached_df, true, None), file)
  | None =>
      if negb api_key
      then (([], false, Some "DUNE_API_KEY not found in environment"), file)
      else match dune_api with
           | Raise msg => (([], false, Some msg), file)
           | Ok [] => (([], false, Some "No data returned from Dune"), file)
           | Ok (row :: rest) =>
               match build_frame (row :: rest) with
               | Raise msg => (([], false, Some msg), file)
               | Ok df => ((df, true, None), save_cache df now')
               end
           end
  end.

(** A cache file the loader can have produced a frame from: a stored dataset
    without rows has no [month] column, reading it raises, and it counts as
    [Corrupt]. *)
Definition readable_file (file : option (cache_file (list EvmRow))) : Prop :=
  match file with
  | Some (Entry _ []) => False
  | _ => True
  end.

End Dune.

(** ** fetchers/price_fetcher.py *)

Module Price.

Definition CACHE_TTL_MINUTES : Q := 5.

(** The literal [0.30] returned when no price can be had. *)
Definition FALLBACK_PRICE : Q := 3 # 10.

(** The module-level dict [_price_cache]. *)
Record PriceCache : Type := mk_cache {
  price : option Q;
  timestamp : option datetime
}.

(** The dict as the module creates it. *)
Definition initial_cache : PriceCache := {| price := None; timestamp := None |}.

(** One side of a listed pair: [.get('symbol')], and [float(side['price'])]
    ([None] when the key is absent or the conversion raises). *)
Record TokenSide : Type := mk_side {
  symbol : option string;
  listed_price : option Q
}.

(** An entry of the listing; a side is [None] when its key is absent. *)
Record Dex : Type := mk_dex {
  token0 : option TokenSide;
  token1 : option TokenSide
}.

(** ['tokenN' in dex and dex['tokenN'].get('symbol') == 'FLUID'] *)
Definition is_fluid (side : option TokenSide) : bool :=
  match side with
  | Some s =>
      match symbol s with
      | Some sym => String.eqb sym "FLUID"
      | None => false
      end
  | None => false
  end.

(** [float(dex['tokenN']['price'])] *)
Definition price_of (side : option TokenSide) : result Q :=
  match side with
  | Some s =>
      match listed_price s with
      | Some p => Ok p
      | None => Raise "could not convert string to float"
      end
  | None => Raise "'price'"
  end.

(** The [for dex in dexes] loop: [Ok (Some p)] when it returns the price [p],
    [Ok None] when it ends without a match. *)
Fixpoint scan_dexes (dexes : list Dex) : result (option Q) :=
  match dexes with
  | [] => Ok None
  | dex :: rest =>
      if is_fluid (token0 dex) then
        match price_of (token0 dex) with
        | Ok p => Ok (Some p)
        | Raise msg => Raise msg
        end
      else if is_fluid (token1 dex) then
        match price_of (token1 dex) with
        | Ok p => Ok (Some p)
        | Raise msg => Raise msg
        end
      else scan_dexes rest
  end.

(** Truth value of [_price_cache['price']]: [None] and zero are false. *)
Definition truthy (p : option Q) : bool :=
  match p with
  | Some q => negb (Qeq_bool q 0)
  | None => false
  end.

(** [_price_cache['timestamp']] is set and younger than the TTL at [now]. *)
Definition fresh (st : PriceCache) (now : datetime) : bool :=
  match timestamp st with
  | Some ts => Qltb (total_seconds_between now ts / 60)%Q CACHE_TTL_MINUTES
  | None => false
  end.

(** The [except] handler. *)
Definition on_error (st : PriceCache) : option Q * PriceCache :=
  if truthy (price st) then (price st, st) else (Some FALLBACK_PRICE, st).

(** [get_fluid_price(use_cache)]: the returned value ([None] is Python's
    [None]) and [_price_cache] afterwards.  [now] is the clock when the cache
    is checked, [dexes_api] the reply of the listing endpoint ([Raise] when
    the request or its decoding fails), [now'] the clock when the cache is
    refreshed. *)
Definition get_fluid_price (use_cache : bool) (st : PriceCache) (now : datetime)
    (dexes_api : result (list Dex)) (now' : datetime) : option Q * PriceCache :=
  if use_cache && fresh st now then (price st, st)
  else match dexes_api with
       | Raise _ => on_error st
       | Ok dexes =>
           match scan_dexes dexes with
           | Ok (Some p) => (Some p, {| price := Some p; timestamp := Some now' |})
           | Ok None => (Some FALLBACK_PRICE, st)
           | Raise _ => on_error st
           end
       end.


(** The two keys of the dict are set together: a stored timestamp comes with
    a stored price. *)
Definition consistent (st : PriceCache) : Prop :=
  timestamp st <> None -> price st <> None.

Definition clear_price_cache (st : PriceCache) : PriceCache :=
  {| price := None; timestamp := None |}.

(** The three tiers as the specification words them: a fresh quote; else the
    price of a FLUID entry of a listing that could be fetched; else the last
    known quote if there is one; else the fallback constant. *)
Definition spec_get_fluid_price (st : PriceCache) (now : datetime)
    (dexes_api : result (list Dex)) : option Q :=
  if fresh st now then price st
  else match dexes_api with
       | Ok dexes =>
           match scan_dexes dexes with
           | Ok (Some p) => Some p
           | _ => match price st with
                  | Some q => Some q
                  | None => Some FALLBACK_PRICE
                  end
           end
       | Raise _ =>
           match price st with
           | Some q => Some q
           | None => Some FALLBACK_PRICE
           end
       end.

(** A use of the module by its callers: a call of [get_fluid_price] with what
    the outside world answers during it, or a call of [clear_price_cache]. *)
Inductive call : Type :=
| Get (use_cache : bool) (now : datetime) (dexes_api : result (list Dex)) (now' : datetime)
| Clear.

(** The values returned by the [get_fluid_price] calls of a sequence of uses
    started in state [st], and the state it ends in. *)
Fixpoint run (st : PriceCache) (calls : list call) : list (option Q) * PriceCache :=
  match calls with
  | [] => ([], st)
  | Get use_cache now dexes_api now' :: rest =>
      let '(returned, st') := get_fluid_price use_cache st now dexes_api now' in
      let '(more, final) := run st' rest in
      (returned :: more, final)
  | Clear :: rest => run (clear_price_cache st) rest
  end.

(** No side of the entry has the symbol FLUID. *)
Definition without_fluid (dex : Dex) : bool :=
  negb (is_fluid (token0 dex)) && negb (is_fluid (token1 dex)).

End Price.

(** ** utils/data_processor.py *)

Module Processor.

(** The canonical expense record, a row of a normalized frame. *)
Record ExpenseRecord : Type := mk_record {
  month : datetime;
  chain : string;
  source : string;
  token : string;
  token_amount : Q;
  usd_value : Q;
  num_transactions : Z
}.

Definition normalize_evm_row (fluid_price : Q) (r : Dune.EvmRow) : ExpenseRecord :=
  {| month := Dune.month r;
     chain := Dune.chain r;
     source := Dune.source r;
     token := "FLUID";
     token_amount := Dune.total_fluid_claimed r;
     usd_value := (Dune.total_fluid_claimed r * fluid_price)%Q;
     num_transactions := Dune.total_claims r |}.

(** [normalize_evm_data(dune_df, fluid_price)] *)
Definition normalize_evm_data (dune_df : list Dune.EvmRow) (fluid_price : Q)
    : list ExpenseRecord :=
  match dune_df with
  | [] => []
  | _ :: _ => map (normalize_evm_row fluid_price) dune_df
  end.

(** The local function [calc_usd_value] of [normalize_solana_data]. *)
Definition calc_usd_value (fluid_price : Q) (row : Solana.Monthly.MonthlyRow) : Q :=
  if str_in (Solana.Monthly.token row) ["FLUID"; "SOL"; "WSOL"]
  then (Solana.Monthly.total_amount row * fluid_price)%Q
  else Solana.Monthly.total_usd row.

Definition normalize_solana_row (fluid_price : Q) (r : Solana.Monthly.MonthlyRow)
    : ExpenseRecord :=
  {| month := Solana.Monthly.month r;
     chain := Solana.Monthly.chain r;
     source := Solana.Monthly.source r;
     token := Solana.Monthly.token r;
     token_amount := Solana.Monthly.total_amount r;
     usd_value := calc_usd_value fluid_price r;
     num_transactions := Solana.Monthly.num_transactions r |}.

(** [normalize_solana_data(solana_df, fluid_price)] *)
Definition normalize_solana_data (solana_df : list Solana.Monthly.MonthlyRow)
    (fluid_price : Q) : list ExpenseRecord :=
  match solana_df with
  | [] => []
  | _ :: _ => map (normalize_solana_row fluid_price) solana_df
  end.

(** The order of [sort_values('month', ascending=False)]: [a] may come before
    [b] when [b]'s month is not later than [a]'s. *)
Module MonthDescending <: TotalLeBool.
Definition t : Type := ExpenseRecord.
Definition leb (a b : t) : bool := dt_leb (month b) (month a).
Lemma leb_total : forall a b, leb a b = true \/ leb b a = true.
Proof.
  intros a b. unfold leb, dt_leb.
  destruct (Z.leb_spec (to_micros (month b)) (to_micros (month a))) as [H | H].
  - now left.
  - right. apply Z.leb_le. lia.
Qed.
End MonthDescending.

Module MonthSort := Sort MonthDescending.

(** [df.sort_values('month', ascending=False)].  Rows of one month keep
    their order here; pandas leaves that order open and nothing below relies
    on it. *)
Definition sort_values_month_desc (df : list ExpenseRecord) : list ExpenseRecord :=
  MonthSort.sort df.

(** [str(e)] of an error value placed in an f-string. *)
Definition str_of_error (e : option string) : string :=
  match e with
  | Some s => s
  | None => "None"
  end.

(** [combine_all_expenses()]: (frame, fluid_price, success, error).  The three
    arguments are what [get_fluid_price()], [fetch_dune_monthly_expenses()]
    and [aggregate_monthly_expenses()] returned; the Solana call is only made
    when the EVM one succeeded, so its result is only looked at then. *)
Definition combine_all_expenses (fluid_price : Q)
    (evm : list Dune.EvmRow * bool * option string)
    (solana : list Solana.Monthly.MonthlyRow * bool * option string)
    : list ExpenseRecord * Q * bool * option string :=
  let '(evm_df, evm_success, evm_error) := evm in
  if negb evm_success
  then ([], fluid_price, false, Some ("EVM fetch failed: " ++ str_of_error evm_error))
  else
    let '(solana_df, sol_success, sol_error) := solana in
    if negb sol_success
    then ([], fluid_price, false, Some ("Solana fetch failed: " ++ str_of_error sol_error))
    else
      let evm_normalized := normalize_evm_data evm_df fluid_price in
      let solana_normalized := normalize_solana_data solana_df fluid_price in
      let combined := (evm_normalized ++ solana_normalized)%list in
      match combined with
      | [] =>
          (* both frames are empty and have no columns: sorting raises
             KeyError('month'), which the handler reports *)
          ([], Price.FALLBACK_PRICE, false, Some "'month'")
      | _ :: _ => (sort_values_month_desc combined, fluid_price, true, None)
      end.

(** [a] may stand before [b] in a frame ordered by month, latest first. *)
Definition month_not_earlier (a b : ExpenseRecord) : Prop :=
  to_micros (month b) <= to_micros (month a).

(** The value of an int64 sum: the exact sum, wrapped around to the signed
    64-bit range. *)
Definition wrap64 (z : Z) : Z := (z + 2 ^ 63) mod 2 ^ 64 - 2 ^ 63.

(** A value stored in the metrics dict. *)
Inductive metric : Type :=
| Int (z : Z)
| Float (q : Q)
| Timestamp (d : datetime).

(** [combined_df['month'].max()] of a frame with first row [r]. *)
Definition max_month (r : ExpenseRecord) (rest : list ExpenseRecord) : datetime :=
  fold_left (fun m x => if dt_leb (month x) m then m else month x) rest (month r).

Definition usd_sum (df : list ExpenseRecord) : Q := Qsum (map usd_value df).

(** [get_summary_metrics(combined_df)]: the returned dict.  The USD sums are
    the exact sums of the column (the float sums of the code round); the
    transaction total is the int64 sum. *)
Definition get_summary_metrics (combined_df : list ExpenseRecord)
    : list (string * metric) :=
  match combined_df with
  | [] =>
      [ ("total_usd", Int 0);
        ("current_month_usd", Int 0);
        ("evm_total_usd", Int 0);
        ("solana_total_usd", Int 0);
        ("total_transactions", Int 0) ]
  | r :: rest =>
      let current_month := max_month r rest in
      let current_month_data :=
        filter (fun x => dt_eqb (month x) current_month) combined_df in
      [ ("total_usd", Float (usd_sum combined_df));
        ("current_month_usd", Float (usd_sum current_month_data));
        ("evm_total_usd",
         Float (usd_sum (filter (fun x => String.eqb (source x) "EVM") combined_df)));
        ("solana_total_usd",
         Float (usd_sum (filter (fun x => String.eqb (source x) "Solana") combined_df)));
        ("total_transactions", Int (wrap64 (Zsum (map num_transactions combined_df))));
        ("current_month", Timestamp current_month) ]
  end.

End Processor.

(** ** Sample data

    A treasury history of four transfers in May 2024 (500 USDC out, 2000 USDC
    out, 10 WSOL out, 5000 USDT in) with SOL listed at 150 USD, and two
    upstreams serving it as page 1: one whose page 2 is empty, one whose
    page 2 request fails. *)

Module Sample.

Definition USDC_MINT : string := "EPjFWdd5AufqSSqeM2qN1xzybapC8G4wEGGkZwyTDt1v".
Definition WSOL_MINT : string := "So11111111111111111111111111111111111111112".
Definition USDT_MINT : string := "Es9vMFrzaCERmJfrF4H2FYD4KCoNkY11McCe8BenwNYB".
Definition TREASURY : string := "Cvnta5ecoiCgNbLEXYm6kvhJMmRv3JM3ksKgTLVPg4hk".
Definition FLUID_TEAM : string := "5AZYLkiU4SPYDeRMcPbPRPmiz2Ny85jWFeV4xmQsVBNo".

Definition may_2024 (d h : Z) : datetime := mk_datetime 2024 5 d h 0 0 0.

Definition tokens_meta : Solana.TokensMeta :=
  [ (USDC_MINT, Some "USDC"); (WSOL_MINT, Some "WSOL"); (USDT_MINT, Some "USDT") ].

Definition usdc_500_out : Solana.RawTransfer :=
  Solana.mk_raw "out" TREASURY FLUID_TEAM USDC_MINT (Some 6) (Some 500000000) None
    (Some (may_2024 3 10)) "sig-usdc-500" 264000001.

Definition usdc_2000_out : Solana.RawTransfer :=
  Solana.mk_raw "out" TREASURY FLUID_TEAM USDC_MINT (Some 6) (Some 2000000000) None
    (Some (may_2024 7 12)) "sig-usdc-2000" 264000002.

Definition wsol_10_out : Solana.RawTransfer :=
  Solana.mk_raw "out" TREASURY FLUID_TEAM WSOL_MINT (Some 9) (Some 10000000000) None
    (Some (may_2024 15 9)) "sig-wsol-10" 264000003.

Definition usdt_5000_in : Solana.RawTransfer :=
  Solana.mk_raw "in" FLUID_TEAM TREASURY USDT_MINT (Some 6) (Some 5000000000) None
    (Some (may_2024 20 18)) "sig-usdt-5000" 264000004.

Definition page_1 : list Solana.RawTransfer :=
  [usdc_500_out; usdc_2000_out; wsol_10_out; usdt_5000_in].

Definition vaults : result (list Solana.Vault) :=
  Ok [ Solana.mk_vault (Some "USDC") (Some 1%Q);
       Solana.mk_vault (Some "WSOL") (Some 150%Q) ].

Definition world : Solana.World :=
  {| Solana.api_key := true;
     Solana.solscan := fun page =>
       match page with
       | 1%nat => Solana.Reply true page_1 tokens_meta
       | _ => Solana.Reply true [] []
       end;
     Solana.vault_api := fun _ => vaults;
     Solana.clock := may_2024 31 8 |}.

Definition world_page_2_down : Solana.World :=
  {| Solana.api_key := true;
     Solana.solscan := fun page =>
       match page with
       | 1%nat => Solana.Reply true page_1 tokens_meta
       | _ => Solana.HttpError "503 Server Error: Service Unavailable"
       end;
     Solana.vault_api := fun _ => vaults;
     Solana.clock := may_2024 31 8 |}.

(** A dataset as [save_cache] leaves it, written at 08:00 on 31 May. *)
Definition cached_claims : list Dune.EvmRow :=
  [ Dune.mk_evm (mk_datetime 2024 5 1 0 0 0 0) "ethereum" 10 1000 "EVM" ].

Definition cached_transfers : list Solana.Transaction :=
  [ Solana.classify tokens_meta 150 wsol_10_out (may_2024 15 9) ].

(** A quote of 0.25 USD taken at 08:00 on 31 May. *)
Definition quote_0_25 : Price.PriceCache :=
  {| Price.price := Some (1 # 4); Price.timestamp := Some (may_2024 31 8) |}.

(** A quote of 0 USD taken at 08:00 on 31 May. *)
Definition quote_zero : Price.PriceCache :=
  {| Price.price := Some 0%Q; Price.timestamp := Some (may_2024 31 8) |}.

Definition ten_past_eight : datetime := mk_datetime 2024 5 31 8 10 0 0.

(** A listing without any FLUID pair. *)
Definition listing_without_fluid : list Price.Dex :=
  [ Price.mk_dex (Some (Price.mk_side (Some "USDC") (Some 1%Q)))
                 (Some (Price.mk_side (Some "ETH") (Some 3000%Q))) ].

(** A listing whose second pair has FLUID as its token1. *)
Definition listing_with_fluid : list Price.Dex :=
  listing_without_fluid ++
  [ Price.mk_dex (Some (Price.mk_side (Some "ETH") (Some 3000%Q)))
                 (Some (Price.mk_side (Some "FLUID") (Some (7 # 2)))) ].

(** The EVM row of the specification's scenario. *)
Definition ethereum_may : Dune.EvmRow :=
  Dune.mk_evm (mk_datetime 2024 5 1 0 0 0 0) "ethereum" 10 1000 "EVM".

Definition polygon_june : Dune.EvmRow :=
  Dune.mk_evm (mk_datetime 2024 6 1 0 0 0 0) "polygon" 4 250 "EVM".

(** A monthly Solana frame: a WSOL row and a USDS row. *)
Definition solana_monthly : list Solana.Monthly.MonthlyRow :=
  [ Solana.Monthly.mk_monthly (mk_datetime 2024 5 1 0 0 0 0) "WSOL" 10 1500 1
      "solana" "Solana";
    Solana.Monthly.mk_monthly (mk_datetime 2024 7 1 0 0 0 0) "USDS" 4000 4000 2
      "solana" "Solana" ].

(** A query result of two rows, and one whose second row has a claim count
    that is not a number. *)
Definition query_rows : list Dune.QueryRow :=
  [ Dune.mk_query_row (Ok (mk_datetime 2024 5 1 0 0 0 0)) "ethereum" (Ok 10) (Ok 1000%Q);
    Dune.mk_query_row (Ok (mk_datetime 2024 6 1 0 0 0 0)) "polygon" (Ok 4) (Ok 250%Q) ].

Definition query_rows_bad_count : list Dune.QueryRow :=
  [ Dune.mk_query_row (Ok (mk_datetime 2024 5 1 0 0 0 0)) "ethereum" (Ok 10) (Ok 1000%Q);
    Dune.mk_query_row (Ok (mk_datetime 2024 6 1 0 0 0 0)) "base"
      (Raise "invalid literal for int() with base 10: 'n/a'") (Ok 5%Q) ].

(** The WSOL transfer of the sample history with a time that is not ISO
    text, and an upstream serving it on page 2. *)
Definition wsol_10_out_no_time : Solana.RawTransfer :=
  Solana.mk_raw "out" TREASURY FLUID_TEAM WSOL_MINT (Some 9) (Some 10000000000) None
    None "sig-wsol-10" 264000003.

Definition world_page_2_bad_time : Solana.World :=
  {| Solana.api_key := true;
     Solana.solscan := fun page =>
       match page with
       | 1%nat => Solana.Reply true page_1 tokens_meta
       | 2%nat => Solana.Reply true [usdc_500_out; wsol_10_out_no_time] tokens_meta
       | _ => Solana.Reply true [] []
       end;
     Solana.vault_api := fun _ => vaults;
     Solana.clock := may_2024 31 8 |}.

(** An upstream without any transfer, and one that cannot be reached. *)
Definition world_empty : Solana.World :=
  {| Solana.api_key := true;
     Solana.solscan := fun _ => Solana.Reply true [] [];
     Solana.vault_api := fun _ => vaults;
     Solana.clock := may_2024 31 8 |}.

Definition world_down : Solana.World :=
  {| Solana.api_key := false;
     Solana.solscan := fun _ => Solana.HttpError "503 Server Error: Service Unavailable";
     Solana.vault_api := fun _ => Raise "connection refused";
     Solana.clock := may_2024 31 10 |}.

End Sample.

(** * Properties *)

Local Open Scope list_scope.

(** ** Comparisons on Python numbers *)

Lemma Qltb_lt (x y : Q) : Qltb x y = true <-> (x < y)%Q.
Proof. unfold Qltb, Qlt. apply Z.ltb_lt. Qed.

Lemma Qltb_ge (x y : Q) : Qltb x y = false <-> (y <= x)%Q.
Proof. unfold Qltb, Qle. apply Z.ltb_ge. Qed.

(** ** Solana: classification and the minimum-value filter *)

Section ProcessTransactions.

Variable tokens_meta : Solana.TokensMeta.
Variable sol_price : Q.

Let value_of := Solana.value_usd_of tokens_meta sol_price.
Let classify := Solana.classify tokens_meta sol_price.

Let kept_from := Solana.kept_from tokens_meta sol_price.

(** Loop invariant: on rows whose retained members carry a readable time the
    loop ends normally, having appended exactly the records of the retained
    rows behind what it started with. *)
Lemma process_loop_appends (raw_data : list Solana.RawTransfer) :
  forall processed,
    (forall tx, In tx raw_data ->
       Qltb (value_of tx) Solana.MIN_VALUE_USD = false -> Solana.time tx <> None) ->
    exists out,
      Solana.process_loop tokens_meta sol_price raw_data processed = Ok (processed ++ out)
      /\ forall r, In r out <-> kept_from raw_data r.
Proof.
  induction raw_data as [| tx rest IH]; intros processed Hwf.
  - exists []. cbn. rewrite app_nil_r. split; [reflexivity |].
    intro r; split; [intros [] | intros (tx & ts & [] & _)].
  - cbn [Solana.process_loop].
    destruct (Qltb (Solana.value_usd_of tokens_meta sol_price tx) Solana.MIN_VALUE_USD) eqn:Hlow.
    + destruct (IH processed) as (out & Hrun & Hout).
      { intros tx' Hin. apply Hwf. now right. }
      exists out. split; [exact Hrun |].
      intro r. rewrite Hout. split.
      * intros (tx' & ts & Hin & Hts & Hv & Hr). exists tx', ts. repeat split; auto. now right.
      * intros (tx' & ts & [Heq | Hin] & Hts & Hv & Hr).
        -- subst tx'. unfold value_of in Hv. congruence.
        -- exists tx', ts. repeat split; auto.
    + destruct (Solana.time tx) as [ts |] eqn:Hts.
      2: { exfalso. apply (Hwf tx); [now left | exact Hlow | exact Hts]. }
      destruct (IH (processed ++ [Solana.classify tokens_meta sol_price tx ts]))
        as (out & Hrun & Hout).
      { intros tx' Hin. apply Hwf. now right. }
      exists (Solana.classify tokens_meta sol_price tx ts :: out). split.
      * rewrite Hrun, <- app_assoc. reflexivity.
      * intro r. cbn [In]. rewrite Hout. split.
        -- intros [Heq | (tx' & ts' & Hin & Hts' & Hv & Hr)].
           ++ exists tx, ts. repeat split; auto. now left.
           ++ exists tx', ts'. repeat split; auto. now right.
        -- intros (tx' & ts' & [Heq | Hin] & Hts' & Hv & Hr).
           ++ subst tx'. left. rewrite Hts in Hts'. injection Hts' as <-. now symmetry.
           ++ right. exists tx', ts'. repeat split; auto.
Qed.

(** Whenever the loop ends normally, what it appended are records of
    retained rows. *)
Lemma process_loop_ok_inv (raw_data : list Solana.RawTransfer) :
  forall processed res,
    Solana.process_loop tokens_meta sol_price raw_data processed = Ok res ->
    exists out, res = processed ++ out /\ forall r, In r out -> kept_from raw_data r.
Proof.
  induction raw_data as [| tx rest IH]; intros processed res Hrun.
  - cbn in Hrun. injection Hrun as <-. exists []. rewrite app_nil_r.
    split; [reflexivity | intros r []].
  - cbn [Solana.process_loop] in Hrun.
    destruct (Qltb (Solana.value_usd_of tokens_meta sol_price tx) Solana.MIN_VALUE_USD) eqn:Hlow.
    + apply IH in Hrun. destruct Hrun as (out & -> & Hout).
      exists out. split; [reflexivity |].
      intros r Hr. destruct (Hout r Hr) as (tx' & ts & Hin & Hts & Hv & ->).
      exists tx', ts. repeat split; auto. now right.
    + destruct (Solana.time tx) as [ts |] eqn:Hts; [| discriminate].
      apply IH in Hrun. destruct Hrun as (out & -> & Hout).
      exists (Solana.classify tokens_meta sol_price tx ts :: out).
      split; [now rewrite <- app_assoc |].
      intros r [<- | Hr].
      * exists tx, ts. repeat split; auto. now left.
      * destruct (Hout r Hr) as (tx' & ts' & Hin & Hts' & Hv & ->).
        exists tx', ts'. repeat split; auto. now right.
Qed.

End ProcessTransactions.

(** C2 (as the code has it).  On a page whose rows valued at 1000 USD or more
    all carry a readable ISO time,
    [process_transactions] ends normally, and a raw transfer is dropped when
    its computed USD value is strictly below 1000 and kept, as its classified
    record, when the value is 1000 or more; every record of the output stems
    from a row at or above the threshold. *)
Theorem process_transactions_threshold
    (raw_data : list Solana.RawTransfer) (tokens_meta : Solana.TokensMeta)
    (vault_api : result (list Solana.Vault)) :
  let sol_price := Solana.get_sol_price vault_api in
  let value_of := Solana.value_usd_of tokens_meta sol_price in
  (forall tx, In tx raw_data ->
     (Solana.MIN_VALUE_USD <= value_of tx)%Q -> Solana.time tx <> None) ->
  exists processed,
    Solana.process_transactions raw_data tokens_meta vault_api = Ok processed
    /\ (forall tx, In tx raw_data -> (value_of tx < 1000)%Q ->
          forall ts, ~ In (Solana.classify tokens_meta sol_price tx ts) processed)
    /\ (forall tx ts, In tx raw_data -> Solana.time tx = Some ts ->
          (1000 <= value_of tx)%Q ->
          In (Solana.classify tokens_meta sol_price tx ts) processed)
    /\ (forall r, In r processed ->
          (1000 <= Solana.value_usd r)%Q /\
          exists tx ts, In tx raw_data /\ Solana.time tx = Some ts /\
                        r = Solana.classify tokens_meta sol_price tx ts).
Proof.
  intros sol_price value_of Hwf.
  destruct (process_loop_appends tokens_meta sol_price raw_data []) as (out & Hrun & Hout).
  { intros tx Hin Hv. apply Hwf; [exact Hin | now apply Qltb_ge]. }
  exists out. unfold Solana.process_transactions. fold sol_price.
  split; [exact Hrun |].
  assert (Hfrom : forall r, In r out ->
            (1000 <= Solana.value_usd r)%Q /\
            exists tx ts, In tx raw_data /\ Solana.time tx = Some ts /\
                          r = Solana.classify tokens_meta sol_price tx ts).
  { intros r Hr. apply Hout in Hr. destruct Hr as (tx & ts & Hin & Hts & Hv & ->).
    split; [apply Qltb_ge in Hv; exact Hv | now exists tx, ts]. }
  split; [| split; [| exact Hfrom]].
  - intros tx Hin Hlow ts Hmem.
    destruct (Hfrom _ Hmem) as [Hge _]. cbn in Hge.
    apply (Qlt_irrefl (value_of tx)).
    eapply Qlt_le_trans; [exact Hlow | exact Hge].
  - intros tx ts Hin Hts Hge. apply Hout.
    exists tx, ts. repeat split; auto. now apply Qltb_ge.
Qed.

(** ** Solana: monthly aggregation *)

Lemma filter_filter_andb {A : Type} (f g : A -> bool) (l : list A) :
  filter g (filter f l) = filter (fun x => f x && g x) l.
Proof.
  induction l as [| x l IH]; cbn; [reflexivity |].
  destruct (f x); cbn; [destruct (g x) |]; now rewrite IH.
Qed.

Lemma filter_all_true {A : Type} (f : A -> bool) (l : list A) :
  (forall x, In x l -> f x = true) -> filter f l = l.
Proof.
  induction l as [| x l IH]; cbn; intro H; [reflexivity |].
  rewrite (H x (or_introl eq_refl)). f_equal. apply IH. intros y Hy. apply H. now right.
Qed.

Lemma string_compare_refl (s : string) : String.compare s s = Eq.
Proof.
  pose proof (String.compare_antisym s s) as H.
  destruct (String.compare s s); [reflexivity | discriminate | discriminate].
Qed.

Lemma key_compare_refl (k : datetime * string) : Solana.key_compare k k = Eq.
Proof.
  unfold Solana.key_compare. rewrite Z.compare_refl.
  apply string_compare_refl.
Qed.

Lemma key_eqb_token (a b : datetime * string) :
  Solana.key_eqb a b = true -> snd a = snd b.
Proof.
  unfold Solana.key_eqb, Solana.key_compare.
  destruct (to_micros (fst a) ?= to_micros (fst b)); try discriminate.
  destruct (String.compare (snd a) (snd b)) eqn:Hc; try discriminate.
  intros _. now apply String.compare_eq_iff.
Qed.

Lemma insert_key_In (k x : datetime * string) (keys : list (datetime * string)) :
  In x (Solana.insert_key k keys) -> x = k \/ In x keys.
Proof.
  induction keys as [| k' rest IH]; cbn.
  - intros [<- | []]. now left.
  - destruct (Solana.key_compare k k'); cbn.
    + intros H. now right.
    + intros [<- | H]; [now left | now right].
    + intros [<- | H]; [right; now left |].
      destruct (IH H) as [-> | Hin]; [now left | right; now right].
Qed.

(** Every group key is the key of a row of the frame. *)
Lemma group_keys_In (df : list Solana.Transaction) (k : datetime * string) :
  In k (Solana.group_keys df) -> exists t, In t df /\ k = Solana.group_key t.
Proof.
  unfold Solana.group_keys.
  induction df as [| t df IH]; cbn; [intros [] |].
  intro H. apply insert_key_In in H. destruct H as [-> | H].
  - exists t. split; [now left | reflexivity].
  - destruct (IH H) as (t' & Hin & ->). exists t'. split; [now right | reflexivity].
Qed.

Lemma groupby_row_origin (df : list Solana.Transaction) (row : Solana.Monthly.MonthlyRow) :
  In row (Solana.groupby_month_token df) ->
  exists t, In t df /\ row = Solana.monthly_row df (Solana.group_key t).
Proof.
  unfold Solana.groupby_month_token. intro H.
  apply in_map_iff in H. destruct H as (k & <- & Hk).
  apply group_keys_In in Hk. destruct Hk as (t & Hin & ->). now exists t.
Qed.

(** The frame returned after a fetch is the grouping of the transfers that
    pass the two filters, unless the fetch failed or the month column cannot
    be computed. *)
Lemma aggregate_fetched_rows (transactions : list Solana.Transaction)
    (success : bool) (error : option string) :
  fst (fst (Solana.aggregate_fetched (transactions, success, error))) =
  if success && negb (Solana.mixed_zones (filter Solana.is_expense transactions))
  then Solana.groupby_month_token (filter Solana.is_expense transactions)
  else [].
Proof.
  unfold Solana.aggregate_fetched. destruct success; cbn [negb andb]; [| reflexivity].
  destruct transactions as [| t rest]; [reflexivity |].
  rewrite filter_filter_andb. fold Solana.is_expense.
  destruct (filter Solana.is_expense (t :: rest)) as [| e es]; [reflexivity |].
  now destruct (Solana.mixed_zones (e :: es)).
Qed.

Lemma filter_is_expense_idem (transactions : list Solana.Transaction) :
  filter Solana.is_expense (filter Solana.is_expense transactions) =
  filter Solana.is_expense transactions.
Proof.
  apply filter_all_true. intros t Ht. apply filter_In in Ht. now destruct Ht.
Qed.

Lemma is_expense_true (t : Solana.Transaction) :
  Solana.is_expense t = true ->
  Solana.tx_type t = "Outflow" /\ Solana.token t <> "USDC".
Proof.
  unfold Solana.is_expense, Solana.is_outflow, Solana.not_usdc.
  intro H. apply andb_true_iff in H. destruct H as [Ho Hu].
  apply String.eqb_eq in Ho. apply negb_true_iff, String.eqb_neq in Hu. now split.
Qed.

(** C1.  Whatever the fetch returns (from the cache or from upstream), no row
    of the monthly frame has token USDC; each row carries the sums and the
    count of a non-empty group of fetched transfers that are all of type
    Outflow and of the row's token; and the frame is the one obtained from
    the fetched transfers with every non-Outflow and every USDC transfer
    removed beforehand. *)
Theorem aggregate_excludes_usdc_and_inflows
    (max_pages : nat) (w : Solana.World)
    (file : option (cache_file (list Solana.Transaction))) :
  let fetched := fst (Solana.fetch_all_transactions max_pages w file) in
  let transactions := fst (fst fetched) in
  let monthly := fst (fst (fst (Solana.aggregate_monthly_expenses max_pages w file))) in
  (forall row, In row monthly ->
     Solana.Monthly.token row <> "USDC" /\
     exists group,
       group <> [] /\
       Solana.aggregates row group /\
       forall t, In t group ->
         In t transactions /\ Solana.tx_type t = "Outflow" /\
         Solana.token t = Solana.Monthly.token row)
  /\ monthly =
     fst (fst (Solana.aggregate_fetched
                 (filter Solana.is_expense transactions, snd (fst fetched), snd fetched))).
Proof.
  intros fetched transactions monthly.
  assert (Hm : monthly = fst (fst (Solana.aggregate_fetched fetched))).
  { unfold monthly, fetched, Solana.aggregate_monthly_expenses.
    now destruct (Solana.fetch_all_transactions max_pages w file). }
  destruct fetched as [[txs success] error] eqn:Hf. cbn in transactions. subst transactions.
  rewrite aggregate_fetched_rows in Hm. cbn [fst snd].
  split.
  - intros row Hrow. rewrite Hm in Hrow.
    destruct (success && negb (Solana.mixed_zones (filter Solana.is_expense txs)));
      [| destruct Hrow].
    apply groupby_row_origin in Hrow. destruct Hrow as (t0 & Hin0 & ->).
    apply filter_In in Hin0. destruct Hin0 as [Hin0 Hexp0].
    destruct (is_expense_true _ Hexp0) as [_ Husdc0].
    split; [exact Husdc0 |].
    exists (Solana.group_rows (filter Solana.is_expense txs) (Solana.group_key t0)).
    split; [| split].
    + intro Hnil.
      assert (Hmem : In t0 (Solana.group_rows (filter Solana.is_expense txs)
                              (Solana.group_key t0))).
      { unfold Solana.group_rows. apply filter_In. split.
        - apply filter_In. now split.
        - unfold Solana.key_eqb. now rewrite key_compare_refl. }
      rewrite Hnil in Hmem. destruct Hmem.
    + unfold Solana.aggregates, Solana.monthly_row. cbn. repeat split.
    + intros t Ht. unfold Solana.group_rows in Ht.
      apply filter_In in Ht. destruct Ht as [Ht Hkey].
      apply filter_In in Ht. destruct Ht as [Ht Hexp].
      destruct (is_expense_true _ Hexp) as [Hout _].
      apply key_eqb_token in Hkey. cbn in Hkey. now repeat split.
  - rewrite Hm, aggregate_fetched_rows. now rewrite filter_is_expense_idem.
Qed.

(** ** Solana: pagination and the cache *)

Section Pagination.

Variable w : Solana.World.

(** Pages that were fetched and processed are skipped over by the loop, which
    goes on with what they produced appended. *)
Lemma fetch_pages_prefix (n : nat) :
  forall page pages_left all_transactions,
    (forall j, (page <= j < page + n)%nat -> Solana.page_processed w j <> None) ->
    Solana.fetch_pages w page (n + pages_left) all_transactions =
    Solana.fetch_pages w (page + n) pages_left
      (all_transactions ++ Solana.collected w page n).
Proof.
  induction n as [| n IH]; intros page pages_left acc Hok.
  - cbn. now rewrite Nat.add_0_r, app_nil_r.
  - assert (Hpage : Solana.page_processed w page <> None) by (apply Hok; lia).
    cbn [Nat.add Solana.fetch_pages Solana.collected].
    unfold Solana.page_processed in *.
    destruct (Solana.fetch_from_solscan w page) as [[[raw tm] success] error].
    destruct raw as [| tx rest]; [congruence |].
    destruct success; [| congruence]. cbn [negb].
    destruct (Solana.process_transactions (tx :: rest) tm (Solana.vault_api w page))
      as [processed | msg]; [| congruence].
    rewrite IH by (intros j Hj; apply Hok; lia).
    now rewrite Nat.add_succ_r, app_assoc.
Qed.

(** When the loop ends normally it has gone through a run of pages that were
    all fetched and processed, and holds what they produced. *)
Lemma fetch_pages_finished (n : nat) :
  forall page all_transactions result,
    Solana.fetch_pages w page n all_transactions = Solana.Finished result ->
    exists k, (k <= n)%nat /\
      (forall j, (page <= j < page + k)%nat -> Solana.page_processed w j <> None) /\
      result = all_transactions ++ Solana.collected w page k.
Proof.
  induction n as [| n IH]; intros page acc result Hrun.
  - cbn in Hrun. injection Hrun as <-. exists 0%nat. cbn. rewrite app_nil_r.
    repeat split; [lia | intros j Hj; lia].
  - cbn [Solana.fetch_pages] in Hrun.
    destruct (Solana.fetch_from_solscan w page) as [[[raw tm] success] error] eqn:Hfetch.
    destruct success; cbn [negb] in Hrun; [| discriminate].
    destruct raw as [| tx rest].
    + injection Hrun as <-. exists 0%nat. cbn. rewrite app_nil_r.
      repeat split; [lia | intros j Hj; lia].
    + destruct (Solana.process_transactions (tx :: rest) tm (Solana.vault_api w page))
        as [processed | msg] eqn:Hproc; [| discriminate].
      apply IH in Hrun. destruct Hrun as (k & Hk & Hok & ->).
      assert (Hpage : Solana.page_processed w page = Some processed).
      { unfold Solana.page_processed. now rewrite Hfetch, Hproc. }
      exists (S k). split; [lia |]. split.
      * intros j Hj. destruct (Nat.eq_dec j page) as [-> | Hne].
        -- now rewrite Hpage.
        -- apply Hok. lia.
      * cbn [Solana.collected]. rewrite Hpage. now rewrite app_assoc.
Qed.

End Pagination.

Lemma cache_miss_load (file : option (cache_file (list Solana.Transaction))) :
  Solana.cache_hit file = false ->
  forall max_pages w,
    Solana.fetch_all_transactions max_pages w file =
    match Solana.fetch_pages w 1 max_pages [] with
    | Solana.PageFailed error => (([], false, error), file)
    | Solana.Raised msg => (([], false, Some msg), file)
    | Solana.Finished all_transactions =>
        ((all_transactions, true, None),
         Solana.save_cache all_transactions (Solana.clock w))
    end.
Proof.
  unfold Solana.cache_hit, Solana.fetch_all_transactions.
  destruct (Solana.load_cache file) as [[[| t cached] last_updated] |];
    intros H max_pages w; try reflexivity; discriminate.
Qed.

(** X17.  A fetch that reports failure hands back no transfers and leaves the cache
    file as it was. *)
Lemma fetch_all_transactions_no_partial (max_pages : nat) (w : Solana.World)
    (file : option (cache_file (list Solana.Transaction))) :
  snd (fst (fst (Solana.fetch_all_transactions max_pages w file))) = false ->
  fst (fst (fst (Solana.fetch_all_transactions max_pages w file))) = []
  /\ snd (Solana.fetch_all_transactions max_pages w file) = file.
Proof.
  unfold Solana.fetch_all_transactions.
  destruct (Solana.load_cache file) as [[[| t cached] last_updated] |];
    try (cbn; discriminate);
    destruct (Solana.fetch_pages w 1 max_pages []); cbn; intro H;
    try discriminate; now split.
Qed.

(** C6.  On a cache miss, when the pages before page [k + 1] were all fetched
    and processed: if the request for page [k + 1] fails, the fetch returns
    an empty list, failure and that request's error, and leaves the cache
    file as it was; if page [k + 1] comes back with zero rows, the fetch
    ends there with success, no error, and the rows of the pages before it. *)
Theorem fetch_all_transactions_page_failure
    (max_pages : nat) (w : Solana.World)
    (file : option (cache_file (list Solana.Transaction))) (k : nat) :
  Solana.cache_hit file = false ->
  (k < max_pages)%nat ->
  (forall j, (1 <= j <= k)%nat -> Solana.page_processed w j <> None) ->
  (forall data tokens_meta error,
     Solana.fetch_from_solscan w (S k) = (data, tokens_meta, false, error) ->
     Solana.fetch_all_transactions max_pages w file = (([], false, error), file))
  /\
  (forall tokens_meta error,
     Solana.fetch_from_solscan w (S k) = ([], tokens_meta, true, error) ->
     Solana.fetch_all_transactions max_pages w file =
     ((Solana.collected w 1 k, true, None),
      Some (Entry (Solana.clock w) (Solana.collected w 1 k)))).
Proof.
  intros Hmiss Hk Hok.
  assert (Hrun : Solana.fetch_pages w 1 max_pages [] =
                 Solana.fetch_pages w (S k) (max_pages - k) (Solana.collected w 1 k)).
  { replace max_pages with (k + (max_pages - k))%nat at 1 by lia.
    rewrite fetch_pages_prefix by (intros j Hj; apply Hok; lia).
    reflexivity. }
  destruct (max_pages - k)%nat as [| left] eqn:Hleft; [lia |].
  split.
  - intros data tm error Hfetch.
    rewrite (cache_miss_load file Hmiss), Hrun.
    cbn [Solana.fetch_pages]. now rewrite Hfetch.
  - intros tm error Hfetch.
    rewrite (cache_miss_load file Hmiss), Hrun.
    cbn [Solana.fetch_pages]. now rewrite Hfetch.
Qed.

(** Each collected record comes out of the processing of one of the pages. *)
Lemma collected_In (w : Solana.World) (n : nat) :
  forall page r,
    In r (Solana.collected w page n) ->
    exists j processed,
      (page <= j < page + n)%nat /\
      Solana.page_processed w j = Some processed /\ In r processed.
Proof.
  induction n as [| n IH]; intros page r Hr; [destruct Hr |].
  cbn [Solana.collected] in Hr.
  destruct (Solana.page_processed w page) as [processed |] eqn:Hpage.
  - apply in_app_or in Hr. destruct Hr as [Hr | Hr].
    + exists page, processed. repeat split; auto; lia.
    + destruct (IH _ _ Hr) as (j & p & Hj & Hp & Hin). exists j, p. repeat split; auto; lia.
  - destruct (IH _ _ Hr) as (j & p & Hj & Hp & Hin). exists j, p. repeat split; auto; lia.
Qed.

(** C5 (as the code has it).  After a successful fetch that was not answered
    from the cache, the cache file holds, stamped with the time of the write,
    exactly the list the fetch returns: the processed rows of the pages gone
    through, in page order.  Every stored record is the classified form of an
    upstream row whose value is 1000 USD or more; rows below the threshold
    are not stored. *)
Theorem fetch_all_transactions_caches_processed
    (max_pages : nat) (w : Solana.World)
    (file file' : option (cache_file (list Solana.Transaction)))
    (transactions : list Solana.Transaction) (error : option string) :
  Solana.cache_hit file = false ->
  Solana.fetch_all_transactions max_pages w file = ((transactions, true, error), file') ->
  file' = Some (Entry (Solana.clock w) transactions)
  /\ (exists k, (k <= max_pages)%nat /\
        (forall j, (1 <= j <= k)%nat -> Solana.page_processed w j <> None) /\
        transactions = Solana.collected w 1 k)
  /\ (forall r, In r transactions ->
        (1000 <= Solana.value_usd r)%Q /\
        exists page raw_data tokens_meta tx ts,
          Solana.fetch_from_solscan w page = (raw_data, tokens_meta, true, None) /\
          In tx raw_data /\ Solana.time tx = Some ts /\
          r = Solana.classify tokens_meta
                (Solana.get_sol_price (Solana.vault_api w page)) tx ts).
Proof.
  intros Hmiss Hrun.
  rewrite (cache_miss_load file Hmiss) in Hrun.
  destruct (Solana.fetch_pages w 1 max_pages []) as [e | msg | all] eqn:Hloop;
    try discriminate.
  injection Hrun as <- _ <-.
  apply fetch_pages_finished in Hloop. destruct Hloop as (k & Hk & Hok & Hall).
  cbn [app] in Hall. subst all.
  split; [reflexivity |]. split.
  - exists k. repeat split; [exact Hk | intros j Hj; apply Hok; lia].
  - intros r Hr.
    apply collected_In in Hr. destruct Hr as (j & processed & Hj & Hpage & Hin).
    unfold Solana.page_processed in Hpage.
    destruct (Solana.fetch_from_solscan w j) as [[[raw tm] success] err] eqn:Hfetch.
    destruct raw as [| tx0 rest]; [discriminate |].
    destruct success; [| discriminate].
    destruct (Solana.process_transactions (tx0 :: rest) tm (Solana.vault_api w j))
      as [p | msg] eqn:Hproc; [| discriminate].
    injection Hpage as ->.
    unfold Solana.process_transactions in Hproc.
    apply process_loop_ok_inv in Hproc. destruct Hproc as (out & -> & Hout).
    cbn [app] in Hin. destruct (Hout r Hin) as (tx & ts & Htx & Hts & Hv & ->).
    split; [cbn; now apply Qltb_ge in Hv |].
    exists j, (tx0 :: rest), tm, tx, ts. repeat split; auto.
    rewrite Hfetch. f_equal.
    unfold Solana.fetch_from_solscan in Hfetch.
    destruct (negb (Solana.api_key w)); [discriminate |].
    destruct (Solana.solscan w j) as [m | [|] d t]; congruence.
Qed.

(** ** Solana: the properties on the sample history *)

(** C2 on the sample page: the 500-USDC row is dropped, the WSOL row worth
    1500 USD is kept. *)
Lemma process_transactions_threshold_witness :
  (forall tx, In tx Sample.page_1 -> Solana.time tx <> None) /\
  exists processed,
    Solana.process_transactions Sample.page_1 Sample.tokens_meta Sample.vaults = Ok processed
    /\ (forall ts,
          ~ In (Solana.classify Sample.tokens_meta 150 Sample.usdc_500_out ts) processed)
    /\ In (Solana.classify Sample.tokens_meta 150 Sample.wsol_10_out (Sample.may_2024 15 9))
          processed.
Proof.
  assert (Hwf : forall tx, In tx Sample.page_1 -> Solana.time tx <> None).
  { intros tx [<- | [<- | [<- | [<- | []]]]]; discriminate. }
  split; [exact Hwf |].
  destruct (process_transactions_threshold Sample.page_1 Sample.tokens_meta Sample.vaults
              (fun tx Hin _ => Hwf tx Hin))
    as (processed & Hrun & Hlow & Hhigh & _).
  exists processed. split; [exact Hrun |]. split.
  - apply Hlow; [now left | vm_compute; reflexivity].
  - apply Hhigh; [right; right; now left | reflexivity | vm_compute; discriminate].
Defined.

(** C2, as the specification words it, fails: the WSOL transfer worth 1500 USD
    whose time is not ISO text is not retained; [process_transactions] raises
    on it. *)
Lemma process_transactions_unreadable_time_counterexample :
  (1000 <= Solana.value_usd_of Sample.tokens_meta (Solana.get_sol_price Sample.vaults)
             Sample.wsol_10_out_no_time)%Q
  /\ Solana.time Sample.wsol_10_out_no_time = None
  /\ Solana.process_transactions [Sample.wsol_10_out_no_time] Sample.tokens_meta
       Sample.vaults = Raise "Invalid isoformat string".
Proof.
  split; [vm_compute; discriminate |]. split; reflexivity.
Qed.

(** C6 on the sample upstreams: with page 2 down the fetch fails with that
    error and nothing else; with page 2 empty it ends with the rows of
    page 1. *)
Lemma fetch_all_transactions_page_failure_witness :
  Solana.fetch_all_transactions 5 Sample.world_page_2_down None =
    (([], false, Some "503 Server Error: Service Unavailable"), None)
  /\ Solana.fetch_all_transactions 5 Sample.world None =
    ((Solana.collected Sample.world 1 1, true, None),
     Some (Entry (Sample.may_2024 31 8) (Solana.collected Sample.world 1 1))).
Proof.
  split.
  - refine (proj1 (fetch_all_transactions_page_failure 5 Sample.world_page_2_down None 1
                     eq_refl _ _) [] [] _ eq_refl).
    + lia.
    + intros j Hj. assert (j = 1%nat) as -> by lia. vm_compute. discriminate.
  - refine (proj2 (fetch_all_transactions_page_failure 5 Sample.world None 1
                     eq_refl _ _) [] None eq_refl).
    + lia.
    + intros j Hj. assert (j = 1%nat) as -> by lia. vm_compute. discriminate.
Defined.

(** C5 on the sample upstream: the file written holds the three records the
    fetch returns. *)
Lemma fetch_all_transactions_caches_processed_witness :
  snd (Solana.fetch_all_transactions 5 Sample.world None) =
    Some (Entry (Sample.may_2024 31 8)
            (fst (fst (fst (Solana.fetch_all_transactions 5 Sample.world None)))))
  /\ map Solana.signature
       (fst (fst (fst (Solana.fetch_all_transactions 5 Sample.world None)))) =
     ["sig-usdc-2000"; "sig-wsol-10"; "sig-usdt-5000"].
Proof.
  split.
  - refine (proj1 (fetch_all_transactions_caches_processed 5 Sample.world None
                     (snd (Solana.fetch_all_transactions 5 Sample.world None))
                     (fst (fst (fst (Solana.fetch_all_transactions 5 Sample.world None))))
                     None eq_refl _)).
    vm_compute. reflexivity.
  - vm_compute. reflexivity.
Defined.

(** C5, as the specification words it, fails: upstream returned four rows,
    the successful uncached fetch stored three records, and the 500-USDC row
    is the one left out. *)
Lemma cached_dataset_is_filtered_counterexample :
  exists stored,
    Solana.cache_hit None = false
    /\ Solana.fetch_all_transactions 5 Sample.world None =
         ((stored, true, None), Some (Entry (Sample.may_2024 31 8) stored))
    /\ map Solana.trans_id (Solana.spec_upstream_transfers Sample.world 1 5) =
         ["sig-usdc-500"; "sig-usdc-2000"; "sig-wsol-10"; "sig-usdt-5000"]
    /\ map Solana.signature stored = ["sig-usdc-2000"; "sig-wsol-10"; "sig-usdt-5000"].
Proof.
  eexists. split; [reflexivity |]. split; [vm_compute; reflexivity |].
  split; vm_compute; reflexivity.
Qed.

(** The scenario of the specification: of a 500-USDC, a 2000-USDC and a WSOL
    outflow of one month (and an inflow besides) only the WSOL outflow reaches
    the monthly frame, as one record counting one transfer. *)
Example aggregate_sample_history :
  exists row,
    fst (fst (fst (Solana.aggregate_monthly_expenses 5 Sample.world None))) = [row]
    /\ Solana.Monthly.month row = mk_datetime 2024 5 1 0 0 0 0
    /\ Solana.Monthly.token row = "WSOL"
    /\ Solana.Monthly.num_transactions row = 1
    /\ (Solana.Monthly.total_amount row == 10)%Q
    /\ (Solana.Monthly.total_usd row == 1500)%Q.
Proof.
  eexists. split; [vm_compute; reflexivity |].
  repeat split.
Qed.

(** ** The two cache readers *)

(** C3 (as the code has it).  The EVM reader returns nothing when there is no
    file, when the file cannot be read, when the stored dataset has no rows
    (no frame with a month column can be made of it), and when the entry's
    age is 60 minutes or more (so also at exactly 60 minutes); it returns the
    stored dataset when that has rows and the age is below 60 minutes.  The
    Solana reader returns nothing when there is no file or the file cannot be
    read, and otherwise returns the stored dataset, whatever its age. *)
Theorem load_cache_by_source (now : datetime) :
  Dune.load_cache None now = None
  /\ Dune.load_cache (Some Corrupt) now = None
  /\ (forall last_updated, Dune.load_cache (Some (Entry last_updated [])) now = None)
  /\ (forall last_updated data,
        (60 <= total_seconds_between now last_updated / 60)%Q ->
        Dune.load_cache (Some (Entry last_updated data)) now = None)
  /\ (forall last_updated row rest,
        (total_seconds_between now last_updated / 60 < 60)%Q ->
        Dune.load_cache (Some (Entry last_updated (row :: rest))) now =
        Some (row :: rest, last_updated))
  /\ Solana.load_cache None = None
  /\ Solana.load_cache (Some Corrupt) = None
  /\ (forall last_updated transactions,
        Solana.load_cache (Some (Entry last_updated transactions)) =
        Some (transactions, last_updated)).
Proof.
  repeat split; try reflexivity.
  - intros last_updated. cbn.
    now destruct (Qltb (total_seconds_between now last_updated / 60)
                       Dune.CACHE_TTL_MINUTES).
  - intros last_updated data Hage. cbn.
    apply Qltb_ge in Hage. unfold Dune.CACHE_TTL_MINUTES. now rewrite Hage.
  - intros last_updated row rest Hage. cbn.
    apply Qltb_lt in Hage. unfold Dune.CACHE_TTL_MINUTES. now rewrite Hage.
Qed.

(** The boundary: an EVM entry written at 08:00 is gone at 09:00 sharp and
    still served a microsecond before. *)
Example dune_load_cache_at_ttl :
  Dune.load_cache (Some (Entry (Sample.may_2024 31 8) Sample.cached_claims))
    (Sample.may_2024 31 9) = None
  /\ Dune.load_cache (Some (Entry (Sample.may_2024 31 8) Sample.cached_claims))
       (mk_datetime 2024 5 31 8 59 59 999999) =
     Some (Sample.cached_claims, Sample.may_2024 31 8).
Proof. split; vm_compute; reflexivity. Qed.

(** C3, as the specification words it, fails for the Solana reader: an entry
    written at 08:00 is 120 minutes old at 10:00 and is still returned. *)
Lemma solana_load_cache_ignores_age_counterexample :
  (60 <= total_seconds_between (Sample.may_2024 31 10) (Sample.may_2024 31 8) / 60)%Q
  /\ Solana.load_cache (Some (Entry (Sample.may_2024 31 8) Sample.cached_transfers)) =
     Some (Sample.cached_transfers, Sample.may_2024 31 8)
  /\ Dune.load_cache (Some (Entry (Sample.may_2024 31 8) Sample.cached_claims))
       (Sample.may_2024 31 10) = None.
Proof.
  split; [vm_compute; discriminate |]. split; reflexivity.
Qed.

(** ** The price oracle *)



Lemma on_error_price (st : Price.PriceCache) :
  (forall q, Price.price st = Some q -> ~ (q == 0)%Q ->
     Price.on_error st = (Some q, st))
  /\ (Price.price st = None -> Price.on_error st = (Some Price.FALLBACK_PRICE, st))
  /\ exists p, fst (Price.on_error st) = Some p.
Proof.
  unfold Price.on_error, Price.truthy.
  destruct (Price.price st) as [q |].
  - destruct (Qeq_bool q 0) eqn:Hz; cbn.
    + split; [| split; [discriminate | now eexists]].
      intros q' H Hne. injection H as <-. apply Qeq_bool_eq in Hz. contradiction.
    + split; [| split; [discriminate | now eexists]].
      intros q' H _. now injection H as <-.
  - cbn. split; [discriminate |]. split; [reflexivity | now eexists].
Qed.


Lemma initial_cache_consistent : Price.consistent Price.initial_cache.
Proof. intro H. now contradiction H. Qed.

Lemma clear_price_cache_consistent (st : Price.PriceCache) :
  Price.consistent (Price.clear_price_cache st).
Proof. intro H. now contradiction H. Qed.



(** A stored quote of zero is passed over by the handler: with the request
    failing, the code returns 0.30 although a last known quote exists. *)
Example get_fluid_price_zero_quote :
  Price.fresh Sample.quote_zero Sample.ten_past_eight = false
  /\ Price.spec_get_fluid_price Sample.quote_zero Sample.ten_past_eight
       (Raise "connection refused") = Some 0%Q
  /\ fst (Price.get_fluid_price true Sample.quote_zero Sample.ten_past_eight
            (Raise "connection refused") Sample.ten_past_eight) = Some (3 # 10).
Proof. repeat split. Qed.

(** ** Normalization *)

Lemma str_in_3 (x a b c : string) :
  str_in x [a; b; c] = true <-> x = a \/ x = b \/ x = c.
Proof.
  unfold str_in. cbn. rewrite !orb_true_iff, !String.eqb_eq. intuition discriminate.
Qed.

(** C7.  [normalize_solana_data] keeps the rows in place, and the record of a
    row has [usd_value = total_amount * fluid_price] when the row's token is
    FLUID, SOL or WSOL, and [usd_value = total_usd] for every other token;
    the other columns pass through. *)
Theorem normalize_solana_usd_value
    (solana_df : list Solana.Monthly.MonthlyRow) (fluid_price : Q) :
  let out := Processor.normalize_solana_data solana_df fluid_price in
  List.length out = List.length solana_df
  /\ forall i row, nth_error solana_df i = Some row ->
       exists r,
         nth_error out i = Some r
         /\ (Solana.Monthly.token row = "FLUID" \/ Solana.Monthly.token row = "SOL" \/
             Solana.Monthly.token row = "WSOL" ->
             Processor.usd_value r = (Solana.Monthly.total_amount row * fluid_price)%Q)
         /\ (Solana.Monthly.token row <> "FLUID" -> Solana.Monthly.token row <> "SOL" ->
             Solana.Monthly.token row <> "WSOL" ->
             Processor.usd_value r = Solana.Monthly.total_usd row)
         /\ Processor.token r = Solana.Monthly.token row
         /\ Processor.month r = Solana.Monthly.month row
         /\ Processor.token_amount r = Solana.Monthly.total_amount row
         /\ Processor.num_transactions r = Solana.Monthly.num_transactions row.
Proof.
  intro out.
  assert (Hout : out = map (Processor.normalize_solana_row fluid_price) solana_df).
  { unfold out, Processor.normalize_solana_data. now destruct solana_df. }
  rewrite Hout. split; [apply length_map |].
  intros i row Hrow.
  exists (Processor.normalize_solana_row fluid_price row).
  split; [now apply map_nth_error |].
  cbn. unfold Processor.calc_usd_value.
  destruct (str_in (Solana.Monthly.token row) ["FLUID"; "SOL"; "WSOL"]) eqn:Hin.
  - apply str_in_3 in Hin. repeat split. intros H1 H2 H3. intuition congruence.
  - repeat split. intro H. apply str_in_3 in H. congruence.
Qed.

(** C8.  [normalize_evm_data] keeps the rows in place, and the record of a
    row has [usd_value = total_fluid_claimed * fluid_price] and token FLUID
    whatever the row holds; the row (2024-05, ethereum, 10 claims, 1000
    FLUID) at price 0.30 becomes a record of 300 USD, token FLUID, 10
    transactions. *)
Theorem normalize_evm_usd_value :
  (forall (dune_df : list Dune.EvmRow) (fluid_price : Q),
     let out := Processor.normalize_evm_data dune_df fluid_price in
     List.length out = List.length dune_df
     /\ forall i row, nth_error dune_df i = Some row ->
          exists r,
            nth_error out i = Some r
            /\ Processor.usd_value r = (Dune.total_fluid_claimed row * fluid_price)%Q
            /\ Processor.token r = "FLUID"
            /\ Processor.token_amount r = Dune.total_fluid_claimed row
            /\ Processor.num_transactions r = Dune.total_claims row
            /\ Processor.month r = Dune.month row
            /\ Processor.chain r = Dune.chain row)
  /\ exists r,
       Processor.normalize_evm_data [Sample.ethereum_may] (3 # 10) = [r]
       /\ (Processor.usd_value r == 300)%Q
       /\ Processor.token r = "FLUID"
       /\ Processor.num_transactions r = 10.
Proof.
  split.
  - intros dune_df fluid_price out.
    assert (Hout : out = map (Processor.normalize_evm_row fluid_price) dune_df).
    { unfold out, Processor.normalize_evm_data. now destruct dune_df. }
    rewrite Hout. split; [apply length_map |].
    intros i row Hrow.
    exists (Processor.normalize_evm_row fluid_price row).
    split; [now apply map_nth_error |]. cbn. repeat split.
  - eexists. split; [reflexivity |]. cbn. repeat split.
Qed.

(** ** Combination and summary *)

Lemma month_not_earlier_trans :
  Transitive (fun a b => is_true (Processor.MonthDescending.leb a b)).
Proof.
  intros a b c. unfold Processor.MonthDescending.leb, dt_leb, is_true.
  rewrite !Z.leb_le. lia.
Qed.

Lemma StronglySorted_impl {A : Type} (R R' : A -> A -> Prop) (l : list A) :
  (forall a b, R a b -> R' a b) -> StronglySorted R l -> StronglySorted R' l.
Proof.
  intros Himp Hs. induction Hs as [| a l Hs IH Hall]; constructor.
  - exact IH.
  - eapply Forall_impl; [| exact Hall]. intros b. apply Himp.
Qed.

(** Sorting by month, latest first, permutes the frame and leaves every row
    not earlier than all rows behind it. *)
Lemma sort_values_month_desc_sorted (df : list Processor.ExpenseRecord) :
  Permutation df (Processor.sort_values_month_desc df)
  /\ StronglySorted Processor.month_not_earlier (Processor.sort_values_month_desc df).
Proof.
  unfold Processor.sort_values_month_desc. split.
  - apply Processor.MonthSort.Permuted_sort.
  - eapply StronglySorted_impl;
      [| apply Processor.MonthSort.StronglySorted_sort, month_not_earlier_trans].
    intros a b. unfold Processor.MonthDescending.leb, dt_leb, is_true,
      Processor.month_not_earlier.
    now rewrite Z.leb_le.
Qed.

(** C9.  When both fetches succeeded and both normalized frames are
    non-empty, [combine_all_expenses] succeeds with the price it was given
    and a frame that has as many records as the two normalized frames
    together, is a rearrangement of their concatenation, and is ordered by
    month, no record earlier than one behind it. *)
Theorem combine_all_expenses_count_and_order
    (fluid_price : Q) (evm_df : list Dune.EvmRow)
    (solana_df : list Solana.Monthly.MonthlyRow) (evm_error sol_error : option string) :
  let evm_normalized := Processor.normalize_evm_data evm_df fluid_price in
  let solana_normalized := Processor.normalize_solana_data solana_df fluid_price in
  evm_normalized <> [] ->
  solana_normalized <> [] ->
  exists combined,
    Processor.combine_all_expenses fluid_price
      (evm_df, true, evm_error) (solana_df, true, sol_error) =
    (combined, fluid_price, true, None)
    /\ List.length combined =
       (List.length evm_normalized + List.length solana_normalized)%nat
    /\ Permutation (evm_normalized ++ solana_normalized) combined
    /\ StronglySorted Processor.month_not_earlier combined.
Proof.
  intros evm_normalized solana_normalized Hevm Hsol.
  exists (Processor.sort_values_month_desc (evm_normalized ++ solana_normalized)).
  destruct (sort_values_month_desc_sorted (evm_normalized ++ solana_normalized))
    as [Hperm Hsorted].
  split; [| split; [| split; [exact Hperm | exact Hsorted]]].
  - unfold Processor.combine_all_expenses. cbn [negb].
    fold evm_normalized solana_normalized.
    destruct (evm_normalized ++ solana_normalized) as [| r rest] eqn:Hcat; [| reflexivity].
    apply app_eq_nil in Hcat. destruct Hcat as [Hnil _]. contradiction.
  - rewrite <- (Permutation_length Hperm). apply length_app.
Qed.

(** C9 on the sample frames: two EVM and two Solana records combine to four,
    ordered by month. *)
Lemma combine_all_expenses_count_and_order_witness :
  Processor.normalize_evm_data [Sample.ethereum_may; Sample.polygon_june] (3 # 10) <> []
  /\ Processor.normalize_solana_data Sample.solana_monthly (3 # 10) <> []
  /\ exists combined,
       Processor.combine_all_expenses (3 # 10)
         ([Sample.ethereum_may; Sample.polygon_june], true, None)
         (Sample.solana_monthly, true, None) =
       (combined, 3 # 10, true, None)
       /\ List.length combined = 4%nat
       /\ StronglySorted Processor.month_not_earlier combined.
Proof.
  split; [discriminate |]. split; [discriminate |].
  destruct (combine_all_expenses_count_and_order (3 # 10)
              [Sample.ethereum_may; Sample.polygon_june] Sample.solana_monthly None None)
    as (combined & Hrun & Hlen & _ & Hsorted); [discriminate | discriminate |].
  exists combined. split; [exact Hrun |]. split; [exact Hlen | exact Hsorted].
Defined.

(** The months of the combined sample frame, latest first. *)
Example combine_sample_months :
  map (fun r => dt_month (Processor.month r))
    (fst (fst (fst (Processor.combine_all_expenses (3 # 10)
                      ([Sample.ethereum_may; Sample.polygon_june], true, None)
                      (Sample.solana_monthly, true, None))))) = [7; 6; 5; 5].
Proof. vm_compute. reflexivity. Qed.

(** When both normalized frames are empty the sort has no month column to
    work on and the call reports failure. *)
Example combine_all_expenses_both_empty :
  Processor.combine_all_expenses (3 # 10) ([], true, None) ([], true, None) =
  ([], 3 # 10, false, Some "'month'").
Proof. reflexivity. Qed.

(** The running maximum dominates its start and every row gone through, and
    is the start or the month of one of the rows. *)
Lemma max_month_fold (rest : list Processor.ExpenseRecord) :
  forall m0,
    let m := fold_left
               (fun m x => if dt_leb (Processor.month x) m then m else Processor.month x)
               rest m0 in
    to_micros m0 <= to_micros m
    /\ (forall x, In x rest -> to_micros (Processor.month x) <= to_micros m)
    /\ (m = m0 \/ In m (map Processor.month rest)).
Proof.
  induction rest as [| y rest IH]; intros m0; cbn.
  - split; [lia |]. split; [intros x [] | now left].
  - destruct (dt_leb (Processor.month y) m0) eqn:Hle; unfold dt_leb in Hle.
    + apply Z.leb_le in Hle.
      destruct (IH m0) as (H0 & Hall & Hmem). split; [exact H0 |]. split.
      * intros x [<- | Hx]; [lia | now apply Hall].
      * destruct Hmem as [-> | Hin]; [now left | right; now right].
    + apply Z.leb_gt in Hle.
      destruct (IH (Processor.month y)) as (H0 & Hall & Hmem). split; [lia |]. split.
      * intros x [<- | Hx]; [exact H0 | now apply Hall].
      * right. destruct Hmem as [-> | Hin]; [now left | now right].
Qed.

(** C10.  On an empty frame [get_summary_metrics] returns the five numeric
    entries, all 0, and no [current_month] key; on a non-empty frame it
    returns the same five keys and a sixth, [current_month], holding a month
    of the frame that no month of the frame is later than. *)
Theorem get_summary_metrics_shapes :
  (map fst (Processor.get_summary_metrics []) =
     ["total_usd"; "current_month_usd"; "evm_total_usd"; "solana_total_usd";
      "total_transactions"]
   /\ (forall k v, In (k, v) (Processor.get_summary_metrics []) -> v = Processor.Int 0)
   /\ dict_get (Processor.get_summary_metrics []) "current_month" = None)
  /\ forall r rest,
       let metrics := Processor.get_summary_metrics (r :: rest) in
       map fst metrics =
         ["total_usd"; "current_month_usd"; "evm_total_usd"; "solana_total_usd";
          "total_transactions"; "current_month"]
       /\ exists m,
            dict_get metrics "current_month" = Some (Processor.Timestamp m)
            /\ In m (map Processor.month (r :: rest))
            /\ forall x, In x (r :: rest) ->
                 to_micros (Processor.month x) <= to_micros m.
Proof.
  split.
  - split; [reflexivity |]. split; [| reflexivity].
    intros k v Hin. cbn in Hin.
    repeat (destruct Hin as [Heq | Hin]; [now inversion Heq |]). destruct Hin.
  - intros r rest metrics. split; [reflexivity |].
    exists (Processor.max_month r rest). split; [reflexivity |].
    destruct (max_month_fold rest (Processor.month r)) as (H0 & Hall & Hmem).
    fold (Processor.max_month r rest) in H0, Hall, Hmem.
    split.
    + cbn [map In]. destruct Hmem as [-> | Hin]; [now left | now right].
    + intros x [<- | Hx]; [exact H0 | now apply Hall].
Qed.

(** The summary of the combined sample frame. *)
Example summary_of_sample :
  let combined :=
    fst (fst (fst (Processor.combine_all_expenses (3 # 10)
                     ([Sample.ethereum_may; Sample.polygon_june], true, None)
                     (Sample.solana_monthly, true, None)))) in
  dict_get (Processor.get_summary_metrics combined) "current_month" =
    Some (Processor.Timestamp (mk_datetime 2024 7 1 0 0 0 0))
  /\ dict_get (Processor.get_summary_metrics combined) "total_transactions" =
      Some (Processor.Int 17).
Proof. vm_compute. split; reflexivity. Qed.

(** * Further properties *)

(** ** The EVM fetch *)

Lemma convert_column_ok {A : Type} (column : Dune.QueryRow -> result A)
    (rows : list Dune.QueryRow) (vs : list A) :
  Dune.convert_column column rows = Ok vs -> map column rows = map Ok vs.
Proof.
  revert vs. induction rows as [| row rest IH]; intros vs; cbn.
  - intro H. now injection H as <-.
  - destruct (column row) as [v | msg]; [| discriminate].
    destruct (Dune.convert_column column rest) as [vs' | msg]; [| discriminate].
    intro H. injection H as <-. cbn. now rewrite (IH vs' eq_refl).
Qed.

Lemma convert_column_raise {A : Type} (column : Dune.QueryRow -> result A)
    (rows : list Dune.QueryRow) (msg : string) :
  Dune.convert_column column rows = Raise msg ->
  exists row, In row rows /\ column row = Raise msg.
Proof.
  induction rows as [| row rest IH]; cbn; [discriminate |].
  destruct (column row) as [v | m] eqn:Hc.
  - destruct (Dune.convert_column column rest) as [vs | m]; [discriminate |].
    intro H. injection H as ->. destruct (IH eq_refl) as (r & Hin & Hr).
    exists r. split; [now right | exact Hr].
  - intro H. injection H as ->. exists row. split; [now left | exact Hc].
Qed.

Lemma convert_column_total {A : Type} (column : Dune.QueryRow -> result A)
    (rows : list Dune.QueryRow) :
  (forall row, In row rows -> exists v, column row = Ok v) ->
  exists vs, Dune.convert_column column rows = Ok vs.
Proof.
  induction rows as [| row rest IH]; intro Hall; cbn; [now eexists |].
  destruct (Hall row (or_introl eq_refl)) as (v & ->).
  destruct IH as (vs & ->); [intros r Hr; apply Hall; now right |].
  now eexists.
Qed.

(** The frame built from rows whose columns all convert: one record per row,
    in place, holding the converted values and the tag EVM. *)
Lemma assemble_rows (rows : list Dune.QueryRow) :
  forall months claims claimed,
    map Dune.row_month rows = map Ok months ->
    map Dune.row_total_claims rows = map Ok claims ->
    map Dune.row_total_fluid_claimed rows = map Ok claimed ->
    Forall2 (fun row r =>
               Dune.row_month row = Ok (Dune.month r) /\
               Dune.row_total_claims row = Ok (Dune.total_claims r) /\
               Dune.row_total_fluid_claimed row = Ok (Dune.total_fluid_claimed r) /\
               Dune.chain r = Dune.row_chain row /\ Dune.source r = "EVM")
            rows
            (Dune.assemble (map Dune.row_chain rows) months claims claimed).
Proof.
  induction rows as [| row rest IH]; intros months claims claimed Hm Hc Hq.
  - constructor.
  - destruct months as [| m months]; [discriminate |].
    destruct claims as [| n claims]; [discriminate |].
    destruct claimed as [| q claimed]; [discriminate |].
    cbn in Hm, Hc, Hq. injection Hm as Hm Hm'. injection Hc as Hc Hc'.
    injection Hq as Hq Hq'.
    cbn. constructor; [cbn; auto |]. now apply IH.
Qed.

Lemma build_frame_ok (rows : list Dune.QueryRow) (df : list Dune.EvmRow) :
  Dune.build_frame rows = Ok df ->
  Forall2 (fun row r =>
             Dune.row_month row = Ok (Dune.month r) /\
             Dune.row_total_claims row = Ok (Dune.total_claims r) /\
             Dune.row_total_fluid_claimed row = Ok (Dune.total_fluid_claimed r) /\
             Dune.chain r = Dune.row_chain row /\ Dune.source r = "EVM")
          rows df.
Proof.
  unfold Dune.build_frame.
  destruct (Dune.convert_column Dune.row_month rows) as [months | m] eqn:Hm;
    [| discriminate].
  destruct (Dune.convert_column Dune.row_total_claims rows) as [claims | m] eqn:Hc;
    [| discriminate].
  destruct (Dune.convert_column Dune.row_total_fluid_claimed rows) as [claimed | m] eqn:Hq;
    [| discriminate].
  intro H. injection H as <-.
  apply assemble_rows; now apply convert_column_ok.
Qed.

Lemma build_frame_raise (rows : list Dune.QueryRow) (msg : string) :
  Dune.build_frame rows = Raise msg ->
  exists row, In row rows /\
    (Dune.row_month row = Raise msg \/ Dune.row_total_claims row = Raise msg \/
     Dune.row_total_fluid_claimed row = Raise msg).
Proof.
  unfold Dune.build_frame.
  destruct (Dune.convert_column Dune.row_month rows) as [months | m] eqn:Hm.
  - destruct (Dune.convert_column Dune.row_total_claims rows) as [claims | m] eqn:Hc.
    + destruct (Dune.convert_column Dune.row_total_fluid_claimed rows)
        as [claimed | m] eqn:Hq; [discriminate |].
      intro H. injection H as ->. apply convert_column_raise in Hq.
      destruct Hq as (row & Hin & Hr). exists row. auto.
    + intro H. injection H as ->. apply convert_column_raise in Hc.
      destruct Hc as (row & Hin & Hr). exists row. auto.
  - intro H. injection H as ->. apply convert_column_raise in Hm.
    destruct Hm as (row & Hin & Hr). exists row. auto.
Qed.

Lemma build_frame_total (rows : list Dune.QueryRow) :
  (forall row, In row rows ->
     (exists m, Dune.row_month row = Ok m) /\
     (exists n, Dune.row_total_claims row = Ok n) /\
     (exists q, Dune.row_total_fluid_claimed row = Ok q)) ->
  exists df, Dune.build_frame rows = Ok df.
Proof.
  intro Hall. unfold Dune.build_frame.
  destruct (convert_column_total Dune.row_month rows) as (months & ->);
    [intros r Hr; now apply Hall |].
  destruct (convert_column_total Dune.row_total_claims rows) as (claims & ->);
    [intros r Hr; now apply Hall |].
  destruct (convert_column_total Dune.row_total_fluid_claimed rows) as (claimed & ->);
    [intros r Hr; now apply Hall |].
  now eexists.
Qed.

(** The age test of the two TTLs, on the time line. *)
Lemma age_below_minutes (now last_updated : datetime) (ttl : positive) :
  Qltb (total_seconds_between now last_updated / 60) (Zpos ttl # 1) = true <->
  to_micros now - to_micros last_updated < 60000000 * Zpos ttl.
Proof.
  unfold Qltb, total_seconds_between, Qdiv, Qmult, Qinv. cbn.
  rewrite Z.ltb_lt. lia.
Qed.

(** X1.  A fetch answered by upstream: with no usable cache entry, the key set and
    a non-empty result whose columns all convert, the fetch succeeds with one
    record per row, in place, holding the converted values and the source
    tag EVM, and writes exactly that frame to the cache, stamped with the
    time of the write. *)
Theorem dune_fetch_from_upstream
    (file : option (cache_file (list Dune.EvmRow))) (now now' : datetime)
    (rows : list Dune.QueryRow) :
  Dune.load_cache file now = None ->
  rows <> [] ->
  (forall row, In row rows ->
     (exists m, Dune.row_month row = Ok m) /\
     (exists n, Dune.row_total_claims row = Ok n) /\
     (exists q, Dune.row_total_fluid_claimed row = Ok q)) ->
  exists df,
    Dune.fetch_dune_monthly_expenses true file now (Ok rows) now' =
      ((df, true, None), Some (Entry now' df))
    /\ List.length df = List.length rows
    /\ Forall2 (fun row r =>
                  Dune.row_month row = Ok (Dune.month r) /\
                  Dune.row_total_claims row = Ok (Dune.total_claims r) /\
                  Dune.row_total_fluid_claimed row = Ok (Dune.total_fluid_claimed r) /\
                  Dune.chain r = Dune.row_chain row /\ Dune.source r = "EVM")
               rows df.
Proof.
  intros Hmiss Hrows Hconv.
  destruct (build_frame_total rows Hconv) as (df & Hdf).
  exists df. pose proof (build_frame_ok rows df Hdf) as Hrel.
  split; [| split; [symmetry; exact (Forall2_length Hrel) | exact Hrel]].
  unfold Dune.fetch_dune_monthly_expenses. rewrite Hmiss. cbn [negb].
  destruct rows as [| row rest]; [contradiction |]. now rewrite Hdf.
Qed.

(** The theorem on the two-row sample result, with no cache file. *)
Lemma dune_fetch_from_upstream_witness :
  exists df,
    Dune.fetch_dune_monthly_expenses true None (Sample.may_2024 31 8)
      (Ok Sample.query_rows) (Sample.may_2024 31 8) =
      ((df, true, None), Some (Entry (Sample.may_2024 31 8) df))
    /\ List.length df = 2%nat.
Proof.
  destruct (dune_fetch_from_upstream None (Sample.may_2024 31 8) (Sample.may_2024 31 8)
              Sample.query_rows eq_refl) as (df & Hrun & Hlen & _).
  - discriminate.
  - intros row [<- | [<- | []]]; repeat split; now eexists.
  - exists df. split; [exact Hrun | exact Hlen].
Defined.

(** X2.  A fetch that reports failure returns an empty frame and an error text,
    and leaves the cache file as it was. *)
Theorem dune_fetch_failure
    (api_key : bool) (file : option (cache_file (list Dune.EvmRow)))
    (now now' : datetime) (dune_api : result (list Dune.QueryRow)) :
  snd (fst (fst (Dune.fetch_dune_monthly_expenses api_key file now dune_api now'))) = false ->
  exists msg,
    Dune.fetch_dune_monthly_expenses api_key file now dune_api now' =
    (([], false, Some msg), file).
Proof.
  unfold Dune.fetch_dune_monthly_expenses.
  destruct (Dune.load_cache file now) as [[cached_df last_updated] |];
    [cbn; discriminate |].
  destruct api_key; cbn [negb]; [| intros _; now eexists].
  destruct dune_api as [[| row rest] | msg]; try (intros _; now eexists).
  destruct (Dune.build_frame (row :: rest)); [cbn; discriminate | intros _; now eexists].
Qed.

(** The theorem on a request that times out, with no cache file. *)
Lemma dune_fetch_failure_witness :
  exists msg,
    Dune.fetch_dune_monthly_expenses true None (Sample.may_2024 31 8)
      (Raise "Read timed out") (Sample.may_2024 31 8) =
    (([], false, Some msg), None).
Proof.
  exact (dune_fetch_failure true None (Sample.may_2024 31 8) (Sample.may_2024 31 8)
           (Raise "Read timed out") eq_refl).
Defined.

(** X3.  No partial acceptance: with no usable cache entry, one row with a column
    that does not convert fails the whole fetch, with the message of a failed
    conversion, and nothing is written. *)
Theorem dune_fetch_rejects_bad_row
    (file : option (cache_file (list Dune.EvmRow))) (now now' : datetime)
    (rows : list Dune.QueryRow) (bad : Dune.QueryRow) :
  Dune.load_cache file now = None ->
  In bad rows ->
  (exists msg, Dune.row_month bad = Raise msg \/ Dune.row_total_claims bad = Raise msg \/
               Dune.row_total_fluid_claimed bad = Raise msg) ->
  exists msg row,
    Dune.fetch_dune_monthly_expenses true file now (Ok rows) now' =
      (([], false, Some msg), file)
    /\ In row rows
    /\ (Dune.row_month row = Raise msg \/ Dune.row_total_claims row = Raise msg \/
        Dune.row_total_fluid_claimed row = Raise msg).
Proof.
  intros Hmiss Hin (m & Hbad).
  unfold Dune.fetch_dune_monthly_expenses. rewrite Hmiss. cbn [negb].
  destruct rows as [| row rest]; [destruct Hin |].
  destruct (Dune.build_frame (row :: rest)) as [df | msg] eqn:Hdf.
  - exfalso. apply build_frame_ok in Hdf.
    assert (Hall : forall r, In r (row :: rest) ->
              (exists v, Dune.row_month r = Ok v) /\
              (exists v, Dune.row_total_claims r = Ok v) /\
              (exists v, Dune.row_total_fluid_claimed r = Ok v)).
    { clear - Hdf. induction Hdf as [| r e rs es (H1 & H2 & H3 & _) _ IH].
      - intros x [].
      - intros x [<- | Hx]; [| now apply IH].
        split; [now exists (Dune.month e) |].
        split; [now exists (Dune.total_claims e) | now exists (Dune.total_fluid_claimed e)]. }
    destruct (Hall bad Hin) as ((v1 & H1) & (v2 & H2) & (v3 & H3)).
    destruct Hbad as [H | [H | H]]; congruence.
  - destruct (build_frame_raise _ _ Hdf) as (r & Hr & Hmsg).
    exists msg, r. auto.
Qed.

(** The theorem on the sample result whose second row has an unreadable
    count. *)
Lemma dune_fetch_rejects_bad_row_witness :
  exists msg,
    Dune.fetch_dune_monthly_expenses true None (Sample.may_2024 31 8)
      (Ok Sample.query_rows_bad_count) (Sample.may_2024 31 8) =
    (([], false, Some msg), None).
Proof.
  destruct (dune_fetch_rejects_bad_row None (Sample.may_2024 31 8) (Sample.may_2024 31 8)
              Sample.query_rows_bad_count
              (Dune.mk_query_row (Ok (mk_datetime 2024 6 1 0 0 0 0)) "base"
                 (Raise "invalid literal for int() with base 10: 'n/a'") (Ok 5%Q))
              eq_refl) as (msg & row & Hrun & _).
  - right. now left.
  - eexists. right. left. reflexivity.
  - exists msg. exact Hrun.
Defined.

Lemma dune_load_cache_some (file : option (cache_file (list Dune.EvmRow)))
    (now last_updated : datetime) (df : list Dune.EvmRow) :
  Dune.load_cache file now = Some (df, last_updated) ->
  file = Some (Entry last_updated df) /\ df <> [].
Proof.
  unfold Dune.load_cache. destruct file as [[| lu data] |]; try discriminate.
  destruct (Qltb _ _); [| discriminate].
  destruct data as [| row rest]; [discriminate |].
  intro H. injection H as <- <-. split; [reflexivity | discriminate].
Qed.

(** X4.  A frame that a fetch returned with success is what the cache file holds
    afterwards.  Until that entry is 60 minutes old every further fetch
    returns the same frame and leaves the file alone, whether or not the key
    is set and whatever upstream would answer; from then on a failing
    upstream fails the fetch, the expired entry is not fallen back on. *)
Theorem dune_fetch_replayed_until_ttl
    (api_key : bool) (file file' : option (cache_file (list Dune.EvmRow)))
    (now now' : datetime) (dune_api : result (list Dune.QueryRow))
    (df : list Dune.EvmRow) (error : option string) :
  Dune.fetch_dune_monthly_expenses api_key file now dune_api now' =
    ((df, true, error), file') ->
  exists stamp,
    file' = Some (Entry stamp df)
    /\ (forall api_key2 now2 dune_api2 now2',
          (total_seconds_between now2 stamp / 60 < 60)%Q ->
          Dune.fetch_dune_monthly_expenses api_key2 file' now2 dune_api2 now2' =
          ((df, true, None), file'))
    /\ (forall now2 now2' msg,
          (60 <= total_seconds_between now2 stamp / 60)%Q ->
          Dune.fetch_dune_monthly_expenses true file' now2 (Raise msg) now2' =
          (([], false, Some msg), file')).
Proof.
  intro Hrun.
  assert (Hstamp : exists stamp, file' = Some (Entry stamp df) /\ df <> []).
  { unfold Dune.fetch_dune_monthly_expenses in Hrun.
    destruct (Dune.load_cache file now) as [[cached_df last_updated] |] eqn:Hload.
    - injection Hrun as <- _ <-. exists last_updated.
      now apply dune_load_cache_some in Hload.
    - destruct api_key; cbn [negb] in Hrun; [| discriminate].
      destruct dune_api as [[| row rest] | msg]; try discriminate.
      destruct (Dune.build_frame (row :: rest)) as [d | msg] eqn:Hd; [| discriminate].
      injection Hrun as <- _ <-. exists now'. split; [reflexivity |].
      apply build_frame_ok, Forall2_length in Hd. now destruct d. }
  destruct Hstamp as (stamp & -> & Hne). exists stamp. split; [reflexivity |]. split.
  - intros api_key2 now2 dune_api2 now2' Hage.
    apply Qltb_lt in Hage.
    unfold Dune.fetch_dune_monthly_expenses, Dune.load_cache, Dune.CACHE_TTL_MINUTES.
    rewrite Hage. now destruct df.
  - intros now2 now2' msg Hage.
    apply Qltb_ge in Hage.
    unfold Dune.fetch_dune_monthly_expenses, Dune.load_cache, Dune.CACHE_TTL_MINUTES.
    now rewrite Hage.
Qed.

(** The theorem on the two-row sample result fetched at 08:00: at 08:59 the
    frame comes from the cache although the key is gone and upstream is
    down. *)
Lemma dune_fetch_replayed_until_ttl_witness :
  exists df file',
    Dune.fetch_dune_monthly_expenses true None (Sample.may_2024 31 8)
      (Ok Sample.query_rows) (Sample.may_2024 31 8) = ((df, true, None), file')
    /\ Dune.fetch_dune_monthly_expenses false file' (mk_datetime 2024 5 31 8 59 0 0)
         (Raise "Read timed out") (mk_datetime 2024 5 31 8 59 0 0) =
       ((df, true, None), file')
    /\ Dune.fetch_dune_monthly_expenses true file' (Sample.may_2024 31 9)
         (Raise "Read timed out") (Sample.may_2024 31 9) =
       (([], false, Some "Read timed out"), file').
Proof.
  eexists. eexists.
  assert (Hrun : Dune.fetch_dune_monthly_expenses true None (Sample.may_2024 31 8)
                   (Ok Sample.query_rows) (Sample.may_2024 31 8) =
                 ((_, true, None), _)) by reflexivity.
  split; [exact Hrun |].
  destruct (dune_fetch_replayed_until_ttl _ _ _ _ _ _ _ _ Hrun)
    as (stamp & Hstamp & Hhit & Hmiss).
  injection Hstamp as <-.
  split.
  - apply Hhit. vm_compute. reflexivity.
  - apply Hmiss. vm_compute. discriminate.
Defined.

(** X5.  Expiry is final: an entry the EVM reader does not return at one time is
    not returned at any later time. *)
Theorem dune_load_cache_expiry_is_final
    (file : option (cache_file (list Dune.EvmRow))) (now now2 : datetime) :
  Dune.load_cache file now = None ->
  to_micros now <= to_micros now2 ->
  Dune.load_cache file now2 = None.
Proof.
  unfold Dune.load_cache. destruct file as [[| last_updated data] |]; try reflexivity.
  unfold Dune.CACHE_TTL_MINUTES.
  destruct data as [| row rest].
  { intros _ _. now destruct (Qltb (total_seconds_between now2 last_updated / 60) 60). }
  destruct (Qltb (total_seconds_between now last_updated / 60) 60) eqn:H1;
    [discriminate |].
  intros _ Hlater.
  destruct (Qltb (total_seconds_between now2 last_updated / 60) 60) eqn:H2;
    [| reflexivity].
  exfalso.
  apply (age_below_minutes now2 last_updated 60) in H2.
  assert (H1' : ~ (to_micros now - to_micros last_updated < 60000000 * 60)).
  { intro H. apply (age_below_minutes now last_updated 60) in H. congruence. }
  lia.
Qed.

(** The theorem on an entry written at 08:00, read at 09:00 and at 10:00. *)
Lemma dune_load_cache_expiry_is_final_witness :
  Dune.load_cache (Some (Entry (Sample.may_2024 31 8) Sample.cached_claims))
    (Sample.may_2024 31 10) = None.
Proof.
  apply (dune_load_cache_expiry_is_final _ (Sample.may_2024 31 9)).
  - vm_compute. reflexivity.
  - vm_compute. discriminate.
Defined.

(** ** The price oracle: sequences of calls, the scan *)

Lemma get_fluid_price_keeps_consistent
    (use_cache : bool) (st : Price.PriceCache) (now : datetime)
    (dexes_api : result (list Price.Dex)) (now' : datetime) :
  Price.consistent st ->
  Price.consistent (snd (Price.get_fluid_price use_cache st now dexes_api now'))
  /\ exists p, fst (Price.get_fluid_price use_cache st now dexes_api now') = Some p.
Proof.
  intro Hst. unfold Price.get_fluid_price.
  assert (Herr : Price.consistent (snd (Price.on_error st)) /\
                 exists p, fst (Price.on_error st) = Some p).
  { split; [| apply on_error_price].
    unfold Price.on_error. now destruct (Price.truthy (Price.price st)). }
  destruct (use_cache && Price.fresh st now) eqn:Hhit.
  - cbn. split; [exact Hst |].
    apply andb_true_iff in Hhit. destruct Hhit as [_ Hfresh].
    unfold Price.fresh in Hfresh.
    destruct (Price.timestamp st) as [ts |] eqn:Hts; [| discriminate].
    destruct (Price.price st) as [q |] eqn:Hq; [now exists q |].
    exfalso. apply Hst; [rewrite Hts; discriminate | exact Hq].
  - destruct dexes_api as [dexes | msg]; [| exact Herr].
    destruct (Price.scan_dexes dexes) as [[p |] | msg]; [| | exact Herr].
    + cbn. split; [intros _; discriminate | now exists p].
    + cbn. split; [exact Hst | now eexists].
Qed.

Lemma price_run_from (calls : list Price.call) :
  forall st, Price.consistent st ->
    Forall (fun returned => exists p, returned = Some p) (fst (Price.run st calls))
    /\ Price.consistent (snd (Price.run st calls)).
Proof.
  induction calls as [| c rest IH]; intros st Hst; cbn.
  - split; [constructor | exact Hst].
  - destruct c as [use_cache now dexes_api now' |].
    + destruct (get_fluid_price_keeps_consistent use_cache st now dexes_api now' Hst)
        as [Hst' Hnum].
      destruct (Price.get_fluid_price use_cache st now dexes_api now') as [returned st'].
      cbn in Hst', Hnum. destruct (IH st' Hst') as [Hall Hfinal].
      destruct (Price.run st' rest) as [more final]. cbn in *.
      split; [constructor; assumption | exact Hfinal].
    + apply IH. intro H. now contradiction H.
Qed.

(** X6.  Whatever the callers do with the module from its start on (any sequence
    of [get_fluid_price] and [clear_price_cache] calls, with any clock
    readings and any upstream replies), every [get_fluid_price] call returns
    a number, never [None]. *)
Theorem get_fluid_price_always_a_number (calls : list Price.call) :
  Forall (fun returned => exists p, returned = Some p)
         (fst (Price.run Price.initial_cache calls)).
Proof.
  apply price_run_from. intro H. now contradiction H.
Qed.

(** X7.  The stored quote changes only when the scan of a fetched listing returns
    a price, and then it is that price with the time of the refresh: every
    other call leaves the state as it was. *)
Theorem get_fluid_price_writes_only_listed_price
    (use_cache : bool) (st : Price.PriceCache) (now : datetime)
    (dexes_api : result (list Price.Dex)) (now' : datetime) :
  snd (Price.get_fluid_price use_cache st now dexes_api now') = st
  \/ exists dexes p,
       dexes_api = Ok dexes /\ Price.scan_dexes dexes = Ok (Some p)
       /\ Price.get_fluid_price use_cache st now dexes_api now' =
          (Some p, {| Price.price := Some p; Price.timestamp := Some now' |}).
Proof.
  unfold Price.get_fluid_price, Price.on_error.
  destruct (use_cache && Price.fresh st now); [now left |].
  destruct dexes_api as [dexes | msg].
  - destruct (Price.scan_dexes dexes) as [[p |] | msg] eqn:Hscan.
    + right. now exists dexes, p.
    + now left.
    + left. now destruct (Price.truthy (Price.price st)).
  - left. now destruct (Price.truthy (Price.price st)).
Qed.

(** X8.  A refreshed quote is replayed: after a call that was not answered from
    the stored quote and whose scan returned the price [p], every call with
    [use_cache] made less than 5 minutes after the refresh returns [p] and
    leaves the state alone, whatever upstream would answer. *)
Theorem get_fluid_price_replayed_until_ttl
    (use_cache : bool) (st : Price.PriceCache) (now now' : datetime)
    (dexes : list Price.Dex) (p : Q) :
  use_cache && Price.fresh st now = false ->
  Price.scan_dexes dexes = Ok (Some p) ->
  let st' := snd (Price.get_fluid_price use_cache st now (Ok dexes) now') in
  fst (Price.get_fluid_price use_cache st now (Ok dexes) now') = Some p
  /\ forall now2 dexes_api2 now2',
       (total_seconds_between now2 now' / 60 < 5)%Q ->
       Price.get_fluid_price true st' now2 dexes_api2 now2' = (Some p, st').
Proof.
  intros Hmiss Hscan. unfold Price.get_fluid_price at 1 2.
  rewrite Hmiss, Hscan. cbn [fst snd]. split; [reflexivity |].
  intros now2 dexes_api2 now2' Hage. apply Qltb_lt in Hage.
  unfold Price.get_fluid_price, Price.fresh, Price.CACHE_TTL_MINUTES. cbn.
  now rewrite Hage.
Qed.

(** The theorem on the stale sample quote and the listing with a FLUID pair:
    refreshed at 08:10, replayed at 08:14 with upstream down. *)
Lemma get_fluid_price_replayed_until_ttl_witness :
  Price.get_fluid_price true
    (snd (Price.get_fluid_price true Sample.quote_0_25 Sample.ten_past_eight
            (Ok Sample.listing_with_fluid) Sample.ten_past_eight))
    (mk_datetime 2024 5 31 8 14 0 0) (Raise "connection refused")
    (mk_datetime 2024 5 31 8 14 0 0) =
  (Some (7 # 2),
   snd (Price.get_fluid_price true Sample.quote_0_25 Sample.ten_past_eight
          (Ok Sample.listing_with_fluid) Sample.ten_past_eight)).
Proof.
  refine (proj2 (get_fluid_price_replayed_until_ttl true Sample.quote_0_25
                   Sample.ten_past_eight Sample.ten_past_eight
                   Sample.listing_with_fluid (7 # 2) eq_refl eq_refl) _ _ _ _).
  vm_compute. reflexivity.
Defined.

Lemma scan_dexes_skips (pre rest : list Price.Dex) :
  forallb Price.without_fluid pre = true ->
  Price.scan_dexes (pre ++ rest) = Price.scan_dexes rest.
Proof.
  induction pre as [| d pre IH]; cbn; [reflexivity |].
  intro H. apply andb_true_iff in H. destruct H as [Hd Hpre].
  unfold Price.without_fluid in Hd. apply andb_true_iff in Hd.
  destruct Hd as [H0 H1]. apply negb_true_iff in H0, H1.
  rewrite H0, H1. now apply IH.
Qed.

(** X9.  The scan takes the first entry, in listing order, that has a FLUID side,
    and in it [token0] before [token1]; what follows that entry has no
    influence.  If the price of that side, [token0] or [token1], cannot be
    read the scan raises, whatever later entries hold. *)
Theorem scan_dexes_first_match
    (pre rest : list Price.Dex) (dex : Price.Dex) :
  forallb Price.without_fluid pre = true ->
  (Price.is_fluid (Price.token0 dex) = true ->
     forall p, Price.price_of (Price.token0 dex) = Ok p ->
       Price.scan_dexes (pre ++ dex :: rest) = Ok (Some p))
  /\ (Price.is_fluid (Price.token0 dex) = false ->
      Price.is_fluid (Price.token1 dex) = true ->
      forall p, Price.price_of (Price.token1 dex) = Ok p ->
        Price.scan_dexes (pre ++ dex :: rest) = Ok (Some p))
  /\ (Price.is_fluid (Price.token0 dex) = true ->
      forall msg, Price.price_of (Price.token0 dex) = Raise msg ->
        Price.scan_dexes (pre ++ dex :: rest) = Raise msg)
  /\ (Price.is_fluid (Price.token0 dex) = false ->
      Price.is_fluid (Price.token1 dex) = true ->
      forall msg, Price.price_of (Price.token1 dex) = Raise msg ->
        Price.scan_dexes (pre ++ dex :: rest) = Raise msg).
Proof.
  intro Hpre. rewrite (scan_dexes_skips pre (dex :: rest) Hpre). cbn.
  split; [| split; [| split]].
  - intros H0 p Hp. now rewrite H0, Hp.
  - intros H0 H1 p Hp. now rewrite H0, H1, Hp.
  - intros H0 msg Hp. now rewrite H0, Hp.
  - intros H0 H1 msg Hp. now rewrite H0, H1, Hp.
Qed.

(** The theorem on the sample listing: the FLUID side is the [token1] of the
    second pair. *)
Lemma scan_dexes_first_match_witness :
  Price.scan_dexes Sample.listing_with_fluid = Ok (Some (7 # 2)).
Proof.
  refine (proj1 (proj2 (scan_dexes_first_match Sample.listing_without_fluid []
                          (Price.mk_dex (Some (Price.mk_side (Some "ETH") (Some 3000%Q)))
                             (Some (Price.mk_side (Some "FLUID") (Some (7 # 2)))))
                          eq_refl)) eq_refl eq_refl (7 # 2) eq_refl).
Defined.

(** ** Solana: the SOL price, processing, the fetch *)

Lemma scan_vaults_skips (pre rest : list Solana.Vault) :
  (forall u, In u pre -> Solana.supply_symbol u <> Some "WSOL") ->
  Solana.scan_vaults (pre ++ rest) = Solana.scan_vaults rest.
Proof.
  induction pre as [| u pre IH]; intro Hpre; cbn; [reflexivity |].
  assert (Hu : Solana.supply_symbol u <> Some "WSOL") by (apply Hpre; now left).
  destruct (Solana.supply_symbol u) as [sym |].
  - destruct (String.eqb sym "WSOL") eqn:Heq.
    + apply String.eqb_eq in Heq. congruence.
    + apply IH. intros v Hv. apply Hpre. now right.
  - apply IH. intros v Hv. apply Hpre. now right.
Qed.

(** X10.  [get_sol_price] gives 150 when the listing cannot be fetched and when no
    vault has the supply symbol WSOL; otherwise it gives the price of the
    first such vault, or 150 when that price cannot be read, whatever the
    vaults behind it hold. *)
Theorem get_sol_price_first_wsol_or_fallback :
  (forall msg, Solana.get_sol_price (Raise msg) = 150%Q)
  /\ (forall vaults,
        (forall u, In u vaults -> Solana.supply_symbol u <> Some "WSOL") ->
        Solana.get_sol_price (Ok vaults) = 150%Q)
  /\ (forall pre v rest,
        (forall u, In u pre -> Solana.supply_symbol u <> Some "WSOL") ->
        Solana.supply_symbol v = Some "WSOL" ->
        Solana.get_sol_price (Ok (pre ++ v :: rest)) =
        match Solana.supply_price v with
        | Some price => price
        | None => 150%Q
        end).
Proof.
  split; [reflexivity |]. split.
  - intros vaults Hnone. unfold Solana.get_sol_price.
    rewrite <- (app_nil_r vaults), (scan_vaults_skips vaults [] Hnone). reflexivity.
  - intros pre v rest Hpre Hv. unfold Solana.get_sol_price.
    rewrite (scan_vaults_skips pre (v :: rest) Hpre). cbn. rewrite Hv. cbn.
    now destruct (Solana.supply_price v).
Qed.

Section ProcessOrder.

Variable tokens_meta : Solana.TokensMeta.
Variable sol_price : Q.

Let retained (tx : Solana.RawTransfer) : bool :=
  negb (Qltb (Solana.value_usd_of tokens_meta sol_price tx) Solana.MIN_VALUE_USD).

Lemma process_loop_signatures (raw_data : list Solana.RawTransfer) :
  forall processed res,
    Solana.process_loop tokens_meta sol_price raw_data processed = Ok res ->
    map Solana.signature res =
    map Solana.signature processed ++ map Solana.trans_id (filter retained raw_data).
Proof.
  induction raw_data as [| tx rest IH]; intros processed res Hrun.
  - cbn in Hrun. injection Hrun as <-. cbn. now rewrite app_nil_r.
  - cbn [Solana.process_loop] in Hrun. cbn [filter]. unfold retained at 1.
    destruct (Qltb (Solana.value_usd_of tokens_meta sol_price tx) Solana.MIN_VALUE_USD).
    + cbn [negb]. now apply IH.
    + destruct (Solana.time tx) as [ts |]; [| discriminate].
      apply IH in Hrun. rewrite Hrun, map_app, <- app_assoc. reflexivity.
Qed.

Lemma process_loop_unreadable_time (raw_data : list Solana.RawTransfer) :
  forall processed,
    (exists tx, In tx raw_data /\ retained tx = true /\ Solana.time tx = None) ->
    Solana.process_loop tokens_meta sol_price raw_data processed =
    Raise "Invalid isoformat string".
Proof.
  induction raw_data as [| tx rest IH]; intros processed (bad & Hin & Hkeep & Htime).
  - destruct Hin.
  - cbn [Solana.process_loop].
    destruct (Qltb (Solana.value_usd_of tokens_meta sol_price tx) Solana.MIN_VALUE_USD)
      eqn:Hlow.
    + apply IH. exists bad. destruct Hin as [<- | Hin].
      * unfold retained in Hkeep. rewrite Hlow in Hkeep. discriminate.
      * auto.
    + destruct (Solana.time tx) as [ts |] eqn:Hts; [| reflexivity].
      apply IH. exists bad. destruct Hin as [<- | Hin]; [congruence | auto].
Qed.

End ProcessOrder.

(** X11.  [process_transactions] keeps the upstream order: the signatures of its
    output are the transaction ids of the rows valued at 1000 USD or more,
    one for one and in the order of the page; so the output is never longer
    than the page. *)
Theorem process_transactions_keeps_order
    (raw_data : list Solana.RawTransfer) (tokens_meta : Solana.TokensMeta)
    (vault_api : result (list Solana.Vault)) (processed : list Solana.Transaction) :
  Solana.process_transactions raw_data tokens_meta vault_api = Ok processed ->
  map Solana.signature processed =
    map Solana.trans_id
      (filter (fun tx =>
                 negb (Qltb (Solana.value_usd_of tokens_meta
                               (Solana.get_sol_price vault_api) tx)
                            Solana.MIN_VALUE_USD))
              raw_data)
  /\ (List.length processed <= List.length raw_data)%nat.
Proof.
  intro Hrun. unfold Solana.process_transactions in Hrun.
  apply process_loop_signatures in Hrun. cbn [map app] in Hrun.
  split; [exact Hrun |].
  rewrite <- (length_map Solana.signature processed), Hrun, length_map.
  apply filter_length_le.
Qed.

(** The theorem on the sample page. *)
Lemma process_transactions_keeps_order_witness :
  exists processed,
    Solana.process_transactions Sample.page_1 Sample.tokens_meta Sample.vaults = Ok processed
    /\ map Solana.signature processed = ["sig-usdc-2000"; "sig-wsol-10"; "sig-usdt-5000"].
Proof.
  eexists. split; [reflexivity |].
  refine (proj1 (process_transactions_keeps_order Sample.page_1 Sample.tokens_meta
                   Sample.vaults _ eq_refl)).
Defined.

Lemma dict_get_In {V : Type} (d : list (string * V)) (k : string) (v : V) :
  dict_get d k = Some v -> In (k, v) d.
Proof.
  induction d as [| [k' v'] rest IH]; cbn; [discriminate |].
  destruct (String.eqb k' k) eqn:Heq.
  - apply String.eqb_eq in Heq. intro H. injection H as <-. subst. now left.
  - intro H. right. now apply IH.
Qed.

(** X12.  The valuation of the processed transfers: a record of a stablecoin (USDC,
    USDT, USDS, USDG, EURC) is valued at its amount, a record of SOL or WSOL
    at its amount times the SOL price read for the page; every record is of
    type Inflow or Outflow; its team is the label under which the address
    table lists its counterparty, and Unknown when the table does not list
    it. *)
Theorem process_transactions_valuation
    (raw_data : list Solana.RawTransfer) (tokens_meta : Solana.TokensMeta)
    (vault_api : result (list Solana.Vault)) (processed : list Solana.Transaction) :
  Solana.process_transactions raw_data tokens_meta vault_api = Ok processed ->
  forall r, In r processed ->
    (str_in (Solana.token r) ["USDC"; "USDT"; "USDS"; "USDG"; "EURC"] = true ->
       (Solana.value_usd r == Solana.amount r)%Q)
    /\ (Solana.token r = "SOL" \/ Solana.token r = "WSOL" ->
       Solana.value_usd r = (Solana.amount r * Solana.get_sol_price vault_api)%Q)
    /\ (Solana.tx_type r = "Inflow" \/ Solana.tx_type r = "Outflow")
    /\ (forall label,
         In (Solana.counterparty r, label) Solana.ADDRESS_TAGS -> Solana.team r = label)
    /\ ((forall label, ~ In (Solana.counterparty r, label) Solana.ADDRESS_TAGS) ->
       Solana.team r = "Unknown").
Proof.
  intros Hrun r Hr. unfold Solana.process_transactions in Hrun.
  apply process_loop_ok_inv in Hrun. destruct Hrun as (out & -> & Hout).
  cbn [app] in Hr. destruct (Hout r Hr) as (tx & ts & _ & _ & _ & ->).
  cbn [Solana.classify Solana.token Solana.value_usd Solana.amount Solana.tx_type
       Solana.team Solana.counterparty].
  split; [| split; [| split; [| split]]].
  - intro Hstable. unfold Solana.value_usd_of. rewrite Hstable. apply Qmult_1_r.
  - intro Hsol. unfold Solana.value_usd_of.
    destruct Hsol as [-> | ->]; reflexivity.
  - unfold Solana.tx_type_of. destruct (String.eqb (Solana.flow tx) "in"); auto.
  - intros label Hin. unfold Solana.team_of, dict_get_default.
    unfold Solana.ADDRESS_TAGS in Hin. cbn [In] in Hin.
    repeat (destruct Hin as [Heq | Hin];
            [injection Heq as Hk Hv; rewrite <- Hk, <- Hv; reflexivity |]).
    destruct Hin.
  - intro Hnone. unfold Solana.team_of, dict_get_default.
    destruct (dict_get Solana.ADDRESS_TAGS (Solana.counterparty_of tx)) as [label |] eqn:Hget;
      [| reflexivity].
    apply dict_get_In in Hget. now apply Hnone in Hget.
Qed.

(** The theorem on the WSOL transfer of the sample page: 10 WSOL at a SOL
    price of 150. *)
Lemma process_transactions_valuation_witness :
  Solana.value_usd (Solana.classify Sample.tokens_meta 150 Sample.wsol_10_out
                      (Sample.may_2024 15 9)) =
  (Solana.amount (Solana.classify Sample.tokens_meta 150 Sample.wsol_10_out
                    (Sample.may_2024 15 9)) * 150)%Q.
Proof.
  refine (proj1 (proj2 (process_transactions_valuation Sample.page_1 Sample.tokens_meta
                          Sample.vaults _ eq_refl _ _)) _).
  - cbn. right. now left.
  - now right.
Defined.

(** X13.  One unreadable time fails the fetch: on a cache miss, when the pages
    before page [k + 1] were fetched and processed and page [k + 1] holds a
    row valued at 1000 USD or more whose time is not ISO text, the fetch
    returns no transfers, failure and the parser's message (of which the
    model keeps the fixed part), and leaves the cache file as it was.  (A row below the threshold is dropped before its
    time is read.) *)
Theorem fetch_all_transactions_unreadable_time
    (max_pages : nat) (w : Solana.World)
    (file : option (cache_file (list Solana.Transaction))) (k : nat)
    (raw_data : list Solana.RawTransfer) (tokens_meta : Solana.TokensMeta)
    (error : option string) (bad : Solana.RawTransfer) :
  Solana.cache_hit file = false ->
  (k < max_pages)%nat ->
  (forall j, (1 <= j <= k)%nat -> Solana.page_processed w j <> None) ->
  Solana.fetch_from_solscan w (S k) = (raw_data, tokens_meta, true, error) ->
  In bad raw_data ->
  (1000 <= Solana.value_usd_of tokens_meta
             (Solana.get_sol_price (Solana.vault_api w (S k))) bad)%Q ->
  Solana.time bad = None ->
  Solana.fetch_all_transactions max_pages w file =
  (([], false, Some "Invalid isoformat string"), file).
Proof.
  intros Hmiss Hk Hok Hfetch Hin Hval Htime.
  rewrite (cache_miss_load file Hmiss).
  replace max_pages with (k + (max_pages - k))%nat by lia.
  rewrite fetch_pages_prefix by (intros j Hj; apply Hok; lia).
  destruct (max_pages - k)%nat as [| left] eqn:Hleft; [lia |].
  cbn [Solana.fetch_pages]. replace (1 + k)%nat with (S k) by lia.
  rewrite Hfetch. cbn [negb].
  destruct raw_data as [| tx rest]; [destruct Hin |].
  unfold Solana.process_transactions.
  rewrite process_loop_unreadable_time; [reflexivity |].
  exists bad. repeat split; auto.
  apply negb_true_iff. now apply Qltb_ge.
Qed.

(** The theorem on the sample upstream whose page 2 holds the WSOL transfer
    without a readable time. *)
Lemma fetch_all_transactions_unreadable_time_witness :
  Solana.fetch_all_transactions 5 Sample.world_page_2_bad_time None =
  (([], false, Some "Invalid isoformat string"), None).
Proof.
  refine (fetch_all_transactions_unreadable_time 5 Sample.world_page_2_bad_time None 1
            _ _ _ Sample.wsol_10_out_no_time eq_refl _ _ eq_refl _ _ eq_refl).
  - lia.
  - intros j Hj. assert (j = 1%nat) as -> by lia. vm_compute. discriminate.
  - right. now left.
  - vm_compute. discriminate.
Defined.

(** X14.  The Solana cache is served without limit of time: once a fetch has
    returned a non-empty list with success, every later fetch returns that
    list and leaves the file alone, whatever the page limit, the key, the
    upstream or the clock. *)
Theorem solana_fetch_replayed
    (max_pages : nat) (w : Solana.World)
    (file file' : option (cache_file (list Solana.Transaction)))
    (transactions : list Solana.Transaction) (error : option string) :
  Solana.fetch_all_transactions max_pages w file = ((transactions, true, error), file') ->
  transactions <> [] ->
  forall max_pages2 w2,
    Solana.fetch_all_transactions max_pages2 w2 file' = ((transactions, true, None), file').
Proof.
  intros Hrun Hne max_pages2 w2.
  assert (Hfile : exists stamp, file' = Some (Entry stamp transactions)).
  { unfold Solana.fetch_all_transactions in Hrun.
    destruct (Solana.load_cache file) as [[[| t cached] last_updated] |] eqn:Hload.
    - destruct (Solana.fetch_pages w 1 max_pages []); try discriminate.
      injection Hrun as <- _ <-. now eexists.
    - injection Hrun as <- _ <-. exists last_updated.
      unfold Solana.load_cache in Hload.
      destruct file as [[| lu data] |]; try discriminate. now injection Hload as -> ->.
    - destruct (Solana.fetch_pages w 1 max_pages []); try discriminate.
      injection Hrun as <- _ <-. now eexists. }
  destruct Hfile as (stamp & ->).
  unfold Solana.fetch_all_transactions. cbn.
  destruct transactions as [| t rest]; [contradiction | reflexivity].
Qed.

(** The theorem on the sample history: fetched once, then served with the key
    unset and upstream down. *)
Lemma solana_fetch_replayed_witness :
  exists transactions file',
    Solana.fetch_all_transactions 5 Sample.world None = ((transactions, true, None), file')
    /\ Solana.fetch_all_transactions 5 Sample.world_down file' =
       ((transactions, true, None), file').
Proof.
  eexists. eexists.
  assert (Hrun : Solana.fetch_all_transactions 5 Sample.world None =
                 ((_, true, None), _)) by reflexivity.
  split; [exact Hrun |].
  apply (solana_fetch_replayed _ _ _ _ _ _ Hrun). vm_compute. discriminate.
Defined.

(** X15.  An empty result is written to the cache but never served from it: after
    a fetch that returned an empty list with success, the next fetch goes to
    upstream again and returns what a fetch without any cache file returns. *)
Theorem solana_fetch_empty_not_replayed
    (max_pages : nat) (w : Solana.World)
    (file file' : option (cache_file (list Solana.Transaction)))
    (error : option string) :
  Solana.fetch_all_transactions max_pages w file = (([], true, error), file') ->
  file' = Some (Entry (Solana.clock w) [])
  /\ forall max_pages2 w2,
       fst (Solana.fetch_all_transactions max_pages2 w2 file') =
       fst (Solana.fetch_all_transactions max_pages2 w2 None).
Proof.
  intro Hrun.
  assert (Hfile : file' = Some (Entry (Solana.clock w) [])).
  { unfold Solana.fetch_all_transactions in Hrun.
    destruct (Solana.load_cache file) as [[[| t cached] last_updated] |];
      try discriminate;
      destruct (Solana.fetch_pages w 1 max_pages []); try discriminate;
      now injection Hrun as <- _ <-. }
  split; [exact Hfile |]. subst file'.
  intros max_pages2 w2. unfold Solana.fetch_all_transactions. cbn.
  now destruct (Solana.fetch_pages w2 1 max_pages2 []).
Qed.

(** The theorem on an upstream without transfers, followed by the sample
    upstream. *)
Lemma solana_fetch_empty_not_replayed_witness :
  snd (Solana.fetch_all_transactions 5 Sample.world_empty None) =
    Some (Entry (Sample.may_2024 31 8) [])
  /\ fst (Solana.fetch_all_transactions 5 Sample.world
           (snd (Solana.fetch_all_transactions 5 Sample.world_empty None))) =
     fst (Solana.fetch_all_transactions 5 Sample.world None).
Proof.
  destruct (solana_fetch_empty_not_replayed 5 Sample.world_empty None
              (snd (Solana.fetch_all_transactions 5 Sample.world_empty None)) None
              eq_refl) as [Hfile Hnext].
  split; [exact Hfile | apply Hnext].
Defined.

Lemma fetch_pages_agree (w1 w2 : Solana.World) (n : nat) :
  Solana.api_key w1 = Solana.api_key w2 ->
  forall page all_transactions,
    (forall j, (page <= j < page + n)%nat ->
       Solana.solscan w1 j = Solana.solscan w2 j /\
       Solana.vault_api w1 j = Solana.vault_api w2 j) ->
    Solana.fetch_pages w1 page n all_transactions =
    Solana.fetch_pages w2 page n all_transactions.
Proof.
  intro Hkey. induction n as [| n IH]; intros page acc Hsame; [reflexivity |].
  cbn [Solana.fetch_pages]. unfold Solana.fetch_from_solscan.
  destruct (Hsame page) as [Hs Hv]; [lia |]. rewrite Hkey, Hs, Hv.
  destruct (negb (Solana.api_key w2)); [reflexivity |].
  destruct (Solana.solscan w2 page) as [msg | [|] data tm]; cbn [negb]; try reflexivity.
  destruct data as [| tx rest]; [reflexivity |].
  destruct (Solana.process_transactions (tx :: rest) tm (Solana.vault_api w2 page));
    [| reflexivity].
  apply IH. intros j Hj. apply Hsame. lia.
Qed.

(** X16.  The fetch depends on upstream only through pages 1 to [max_pages]: two
    outside worlds with the same key and clock whose transfer endpoint and
    price listing answer alike on those pages give the same result and the
    same cache file. *)
Theorem fetch_all_transactions_page_limit
    (max_pages : nat) (w1 w2 : Solana.World)
    (file : option (cache_file (list Solana.Transaction))) :
  Solana.api_key w1 = Solana.api_key w2 ->
  Solana.clock w1 = Solana.clock w2 ->
  (forall j, (1 <= j <= max_pages)%nat ->
     Solana.solscan w1 j = Solana.solscan w2 j /\
     Solana.vault_api w1 j = Solana.vault_api w2 j) ->
  Solana.fetch_all_transactions max_pages w1 file =
  Solana.fetch_all_transactions max_pages w2 file.
Proof.
  intros Hkey Hclock Hsame. unfold Solana.fetch_all_transactions.
  rewrite (fetch_pages_agree w1 w2 max_pages Hkey 1 [])
    by (intros j Hj; apply Hsame; lia).
  now rewrite Hclock.
Qed.

(** The theorem on the two sample upstreams, which differ from page 2 on,
    with a limit of one page. *)
Lemma fetch_all_transactions_page_limit_witness :
  Solana.fetch_all_transactions 1 Sample.world None =
  Solana.fetch_all_transactions 1 Sample.world_page_2_down None.
Proof.
  apply fetch_all_transactions_page_limit; try reflexivity.
  intros j Hj. assert (j = 1%nat) as -> by lia. split; reflexivity.
Defined.

(** ** Solana: the grouping *)

Lemma key_compare_eq (a b : datetime * string) :
  Solana.key_compare a b = Eq <->
  to_micros (fst a) = to_micros (fst b) /\ snd a = snd b.
Proof.
  unfold Solana.key_compare.
  destruct (Z.compare_spec (to_micros (fst a)) (to_micros (fst b))) as [He | Hl | Hg].
  - split.
    + intro H. split; [exact He | now apply String.compare_eq_iff].
    + intros [_ ->]. apply string_compare_refl.
  - split; [discriminate | lia].
  - split; [discriminate | lia].
Qed.

Lemma key_compare_lt (a b : datetime * string) :
  Solana.key_compare a b = Lt <->
  to_micros (fst a) < to_micros (fst b) \/
  (to_micros (fst a) = to_micros (fst b) /\ String.compare (snd a) (snd b) = Lt).
Proof.
  unfold Solana.key_compare.
  destruct (Z.compare_spec (to_micros (fst a)) (to_micros (fst b))) as [He | Hl | Hg].
  - split; [intro H; right; now split | intros [H | [_ H]]; [lia | exact H]].
  - split; [intros _; now left | reflexivity].
  - split; [discriminate | intros [H | [H _]]; lia].
Qed.

Lemma key_compare_gt (a b : datetime * string) :
  Solana.key_compare a b = Gt -> Solana.key_compare b a = Lt.
Proof.
  unfold Solana.key_compare.
  rewrite (Z.compare_antisym (to_micros (fst a)) (to_micros (fst b))).
  rewrite (String.compare_antisym (snd b) (snd a)).
  destruct (to_micros (fst a) ?= to_micros (fst b)); cbn; try easy.
  destruct (String.compare (snd a) (snd b)); cbn; easy.
Qed.

Lemma string_compare_lt_trans (x y z : string) :
  String.compare x y = Lt -> String.compare y z = Lt -> String.compare x z = Lt.
Proof.
  intros Hxy Hyz.
  apply OrderedTypeEx.String_as_OT.cmp_lt.
  apply OrderedTypeEx.String_as_OT.cmp_lt in Hxy, Hyz.
  eapply OrderedTypeEx.String_as_OT.lt_trans; eassumption.
Qed.

Lemma key_lt_trans (a b c : datetime * string) :
  Solana.key_compare a b = Lt -> Solana.key_compare b c = Lt ->
  Solana.key_compare a c = Lt.
Proof.
  rewrite !key_compare_lt. intros [Hab | [Hab Sab]] [Hbc | [Hbc Sbc]].
  - left. lia.
  - left. lia.
  - left. lia.
  - right. split; [lia | eapply string_compare_lt_trans; eassumption].
Qed.

Lemma insert_key_keeps (k x : datetime * string) (keys : list (datetime * string)) :
  In x keys -> In x (Solana.insert_key k keys).
Proof.
  induction keys as [| k' rest IH]; cbn; [intros [] |].
  intros [Heq | Hin]; destruct (Solana.key_compare k k'); cbn; auto.
Qed.

Lemma insert_key_covers (k : datetime * string) (keys : list (datetime * string)) :
  exists k', In k' (Solana.insert_key k keys) /\ Solana.key_compare k k' = Eq.
Proof.
  induction keys as [| k0 rest IH]; cbn.
  - exists k. split; [now left | apply key_compare_refl].
  - destruct (Solana.key_compare k k0) eqn:Hc.
    + exists k0. split; [now left | exact Hc].
    + exists k. split; [now left | apply key_compare_refl].
    + destruct IH as (k' & Hin & Heq). exists k'. split; [now right | exact Heq].
Qed.

Lemma insert_key_sorted (k : datetime * string) (keys : list (datetime * string)) :
  StronglySorted (fun a b => Solana.key_compare a b = Lt) keys ->
  StronglySorted (fun a b => Solana.key_compare a b = Lt) (Solana.insert_key k keys).
Proof.
  induction 1 as [| k0 rest Hsorted IH Hall]; cbn.
  - constructor; constructor.
  - destruct (Solana.key_compare k k0) eqn:Hc.
    + now constructor.
    + constructor; [now constructor |].
      constructor; [exact Hc |].
      eapply Forall_impl; [| exact Hall]. intros b Hb. eapply key_lt_trans; eassumption.
    + constructor; [exact IH |].
      apply Forall_forall. intros x Hx. apply insert_key_In in Hx.
      destruct Hx as [-> | Hx]; [now apply key_compare_gt |].
      rewrite Forall_forall in Hall. now apply Hall.
Qed.

Lemma group_keys_sorted (df : list Solana.Transaction) :
  StronglySorted (fun a b => Solana.key_compare a b = Lt) (Solana.group_keys df).
Proof.
  unfold Solana.group_keys. induction df as [| t df IH]; cbn.
  - constructor.
  - now apply insert_key_sorted.
Qed.

Lemma group_keys_cover (df : list Solana.Transaction) (t : Solana.Transaction) :
  In t df ->
  exists k, In k (Solana.group_keys df) /\ Solana.key_eqb (Solana.group_key t) k = true.
Proof.
  unfold Solana.group_keys. induction df as [| t0 df IH]; cbn; [intros [] |].
  intros [<- | Hin].
  - destruct (insert_key_covers (Solana.group_key t0)
                (fold_right Solana.insert_key [] (map Solana.group_key df)))
      as (k & Hk & Heq).
    exists k. split; [exact Hk |]. unfold Solana.key_eqb. now rewrite Heq.
  - destruct (IH Hin) as (k & Hk & Heq). exists k.
    split; [now apply insert_key_keeps | exact Heq].
Qed.

Lemma key_compare_congr (x a b : datetime * string) :
  Solana.key_compare x a = Eq -> Solana.key_compare x b = Solana.key_compare a b.
Proof.
  intro H. apply key_compare_eq in H. destruct H as [Hm Ht].
  unfold Solana.key_compare. now rewrite Hm, Ht.
Qed.

Lemma filter_none {A : Type} (p : A -> bool) (l : list A) :
  (forall x, In x l -> p x = false) -> filter p l = [].
Proof.
  induction l as [| x l IH]; cbn; intro H; [reflexivity |].
  rewrite (H x (or_introl eq_refl)). apply IH. intros y Hy. apply H. now right.
Qed.

(** In an increasing list of keys a key has at most one equal. *)
Lemma single_match (x : datetime * string) (keys : list (datetime * string)) :
  StronglySorted (fun a b => Solana.key_compare a b = Lt) keys ->
  forall k, In k keys -> Solana.key_eqb x k = true ->
    filter (Solana.key_eqb x) keys = [k].
Proof.
  induction 1 as [| a rest Hsorted IH Hall]; intros k Hin Hk; [destruct Hin |].
  rewrite Forall_forall in Hall. cbn [filter].
  assert (Hxk : Solana.key_compare x k = Eq).
  { unfold Solana.key_eqb in Hk. now destruct (Solana.key_compare x k). }
  destruct Hin as [-> | Hin].
  - rewrite Hk. f_equal. apply filter_none.
    intros b Hb. unfold Solana.key_eqb.
    now rewrite (key_compare_congr x k b Hxk), (Hall b Hb).
  - unfold Solana.key_eqb at 1.
    destruct (Solana.key_compare x a) eqn:Hxa.
    + exfalso. rewrite (key_compare_congr x a k Hxa) in Hxk.
      rewrite (Hall k Hin) in Hxk. discriminate.
    + now apply IH.
    + now apply IH.
Qed.

Lemma Zsum_map_plus {A : Type} (g h : A -> Z) (l : list A) :
  Zsum (map (fun x => g x + h x) l) = Zsum (map g l) + Zsum (map h l).
Proof.
  unfold Zsum.
  induction l as [| x l IH]; cbn [map fold_right]; [reflexivity |]. rewrite IH. lia.
Qed.

Lemma Zsum_indicator {A : Type} (p : A -> bool) (l : list A) :
  Zsum (map (fun x => if p x then 1 else 0) l) = Z.of_nat (List.length (filter p l)).
Proof.
  unfold Zsum.
  induction l as [| x l IH]; cbn [map fold_right filter]; [reflexivity |].
  rewrite IH. destruct (p x); cbn [List.length]; lia.
Qed.

Section GroupTotals.

Variable keys : list (datetime * string).
Hypothesis keys_sorted : StronglySorted (fun a b => Solana.key_compare a b = Lt) keys.

(** Counting the rows group by group gives the number of rows, when every row
    has its key among the group keys. *)
Lemma group_counts (df : list Solana.Transaction) :
  (forall t, In t df ->
     exists k, In k keys /\ Solana.key_eqb (Solana.group_key t) k = true) ->
  Zsum (map (fun k => Z.of_nat (List.length (Solana.group_rows df k))) keys) =
  Z.of_nat (List.length df).
Proof.
  induction df as [| t df IH]; intro Hcover.
  - clear. unfold Zsum. cbn [Solana.group_rows filter List.length].
    induction keys as [| k ks IHks]; cbn [map fold_right]; [reflexivity | now rewrite IHks].
  - transitivity
      (Zsum (map (fun k => (if Solana.key_eqb (Solana.group_key t) k then 1 else 0)
                           + Z.of_nat (List.length (Solana.group_rows df k))) keys)).
    { f_equal. apply map_ext. intro k. unfold Solana.group_rows. cbn [filter].
      destruct (Solana.key_eqb (Solana.group_key t) k); cbn [List.length]; lia. }
    rewrite Zsum_map_plus, Zsum_indicator, IH
      by (intros t' Ht'; apply Hcover; now right).
    destruct (Hcover t (or_introl eq_refl)) as (k & Hk & Heq).
    rewrite (single_match _ keys keys_sorted k Hk Heq). cbn [List.length]. lia.
Qed.

End GroupTotals.

Lemma groupby_row_keys (df : list Solana.Transaction) :
  map Solana.row_key (Solana.groupby_month_token df) = Solana.group_keys df.
Proof.
  unfold Solana.groupby_month_token. rewrite map_map.
  rewrite <- (map_id (Solana.group_keys df)) at 2.
  apply map_ext. now intros [m tok].
Qed.

Lemma StronglySorted_of_map {A B : Type} (f : A -> B) (R : B -> B -> Prop) (l : list A) :
  StronglySorted R (map f l) -> StronglySorted (fun a b => R (f a) (f b)) l.
Proof.
  induction l as [| a l IH]; cbn; intro H; [constructor |].
  inversion H as [| ? ? Hs Hall]; subst. constructor; [now apply IH |].
  rewrite Forall_forall in *. intros b Hb. apply Hall. now apply in_map.
Qed.

(** X18.  The monthly frame is ordered by month, then token, strictly: no two of
    its rows have the same month and the same token. *)
Theorem monthly_rows_ordered_and_distinct
    (fetched : list Solana.Transaction * bool * option string) :
  let rows := fst (fst (Solana.aggregate_fetched fetched)) in
  StronglySorted
    (fun r1 r2 => Solana.key_compare (Solana.row_key r1) (Solana.row_key r2) = Lt) rows
  /\ NoDup (map (fun r => (to_micros (Solana.Monthly.month r), Solana.Monthly.token r)) rows).
Proof.
  intro rows.
  assert (Hsorted : StronglySorted
            (fun r1 r2 => Solana.key_compare (Solana.row_key r1) (Solana.row_key r2) = Lt)
            rows).
  { unfold rows. destruct fetched as [[txs success] error].
    rewrite aggregate_fetched_rows.
    destruct (success && negb (Solana.mixed_zones (filter Solana.is_expense txs)));
      [| constructor].
    apply (StronglySorted_of_map Solana.row_key
             (fun a b => Solana.key_compare a b = Lt)).
    rewrite groupby_row_keys. apply group_keys_sorted. }
  split; [exact Hsorted |].
  induction Hsorted as [| r rest Hs IH Hall]; cbn; constructor; [| exact IH].
  intro Hin. apply in_map_iff in Hin. destruct Hin as (r' & Heq & Hr').
  rewrite Forall_forall in Hall. specialize (Hall r' Hr').
  assert (Heq' : Solana.key_compare (Solana.row_key r) (Solana.row_key r') = Eq).
  { apply key_compare_eq. cbn. injection Heq as H1 H2. now split. }
  congruence.
Qed.

Lemma aggregate_fetched_success (transactions : list Solana.Transaction)
    (success : bool) (error : option string) :
  snd (fst (Solana.aggregate_fetched (transactions, success, error))) =
  success && negb (Solana.mixed_zones (filter Solana.is_expense transactions)).
Proof.
  unfold Solana.aggregate_fetched. destruct success; cbn [negb andb]; [| reflexivity].
  destruct transactions as [| t rest]; [reflexivity |].
  rewrite filter_filter_andb. fold Solana.is_expense.
  destruct (filter Solana.is_expense (t :: rest)) as [| e es]; [reflexivity |].
  now destruct (Solana.mixed_zones (e :: es)).
Qed.

(** X19.  Grouping loses and invents no transfer: whenever the aggregation
    reports success, the transfer counts of the monthly rows add up to the
    number of fetched transfers that are Outflow and not USDC. *)
Theorem monthly_rows_conserve_counts
    (transactions : list Solana.Transaction) (success : bool) (error : option string) :
  snd (fst (Solana.aggregate_fetched (transactions, success, error))) = true ->
  Zsum (map Solana.Monthly.num_transactions
          (fst (fst (Solana.aggregate_fetched (transactions, success, error))))) =
  Z.of_nat (List.length (filter Solana.is_expense transactions)).
Proof.
  intro Hok. rewrite aggregate_fetched_success in Hok.
  rewrite aggregate_fetched_rows, Hok.
  unfold Solana.groupby_month_token. rewrite !map_map. cbn.
  apply group_counts; [apply group_keys_sorted | apply group_keys_cover].
Qed.

(** The theorem on the sample history: one monthly row counting the one
    transfer that is an outflow and not USDC. *)
Lemma monthly_rows_conserve_counts_witness :
  Zsum (map Solana.Monthly.num_transactions
          (fst (fst (Solana.aggregate_fetched
                       (fst (Solana.fetch_all_transactions 5 Sample.world None)))))) = 1.
Proof.
  exact (monthly_rows_conserve_counts
           (fst (fst (fst (Solana.fetch_all_transactions 5 Sample.world None))))
           true None eq_refl).
Defined.



(** Two USDT outflows, the first with a zoned time, the second without: the
    aggregation fails although the fetch succeeded. *)
Example aggregate_mixed_zones :
  Solana.aggregate_fetched
    ([ Solana.mk_tx_tz "sig-a" (Sample.may_2024 3 10) "Outflow" "USDT" 2000 2000
         Sample.FLUID_TEAM "Fluid Team" 264000010 true;
       Solana.mk_tx_tz "sig-b" (Sample.may_2024 4 10) "Outflow" "USDT" 3000 3000
         Sample.FLUID_TEAM "Fluid Team" 264000011 false ],
     true, None) =
  ([], false, Some "Cannot mix tz-aware with tz-naive values").
Proof. reflexivity. Qed.

(** ** Combination and summary: outcomes and totals *)

Lemma normalize_evm_data_map (dune_df : list Dune.EvmRow) (fluid_price : Q) :
  Processor.normalize_evm_data dune_df fluid_price =
  map (Processor.normalize_evm_row fluid_price) dune_df.
Proof. now destruct dune_df. Qed.

Lemma normalize_solana_data_map (solana_df : list Solana.Monthly.MonthlyRow)
    (fluid_price : Q) :
  Processor.normalize_solana_data solana_df fluid_price =
  map (Processor.normalize_solana_row fluid_price) solana_df.
Proof. now destruct solana_df. Qed.

Lemma sort_values_month_desc_nil (df : list Processor.ExpenseRecord) :
  Processor.sort_values_month_desc df = [] -> df = [].
Proof.
  intro H. destruct (sort_values_month_desc_sorted df) as [Hperm _].
  rewrite H in Hperm. now apply Permutation_sym, Permutation_nil in Hperm.
Qed.

(** X21.  The outcomes of [combine_all_expenses].  It succeeds exactly when both
    fetches succeeded and at least one of the two frames has a row, and then
    returns a non-empty frame, the price it was given and no error.  A failed
    EVM fetch is reported whatever the Solana result is; a failed Solana
    fetch is reported next; and when both fetches succeeded with empty frames
    the call fails with the message 'month' and returns the price 0.30
    instead of the price it was given. *)
Theorem combine_all_expenses_outcomes
    (fluid_price : Q) (evm_df : list Dune.EvmRow) (evm_success : bool)
    (evm_error : option string) (solana_df : list Solana.Monthly.MonthlyRow)
    (sol_success : bool) (sol_error : option string) :
  let out := Processor.combine_all_expenses fluid_price
               (evm_df, evm_success, evm_error) (solana_df, sol_success, sol_error) in
  (snd (fst out) = true <->
     evm_success = true /\ sol_success = true /\ (evm_df <> [] \/ solana_df <> []))
  /\ (snd (fst out) = true ->
        fst (fst (fst out)) <> [] /\ snd (fst (fst out)) = fluid_price /\ snd out = None)
  /\ (evm_success = false ->
        out = ([], fluid_price, false,
               Some ("EVM fetch failed: " ++ Processor.str_of_error evm_error)%string))
  /\ (evm_success = true -> sol_success = false ->
        out = ([], fluid_price, false,
               Some ("Solana fetch failed: " ++ Processor.str_of_error sol_error)%string))
  /\ (evm_success = true -> sol_success = true -> evm_df = [] -> solana_df = [] ->
        out = ([], Price.FALLBACK_PRICE, false, Some "'month'")).
Proof.
  intro out. unfold out, Processor.combine_all_expenses.
  destruct evm_success; cbn [negb].
  2: { split; [split; [discriminate | intros [H _]; discriminate] |].
       split; [discriminate |]. split; [reflexivity |]. split; discriminate. }
  destruct sol_success; cbn [negb].
  2: { split; [split; [discriminate | intros (_ & H & _); discriminate] |].
       split; [discriminate |]. split; [discriminate |].
       split; [reflexivity | discriminate]. }
  rewrite normalize_evm_data_map, normalize_solana_data_map.
  destruct evm_df as [| e evm_df]; [destruct solana_df as [| r solana_df] |].
  - cbn. split; [split; [discriminate | intros (_ & _ & [H | H]); now contradiction H] |].
    split; [discriminate |]. split; [discriminate |]. split; [discriminate | reflexivity].
  - cbn [map app fst snd].
    split; [split; [intros _; repeat split; right; discriminate | reflexivity] |].
    split; [| split; [discriminate | split; discriminate]].
    intros _. split; [| now split].
    intro H. apply sort_values_month_desc_nil in H. discriminate.
  - cbn [map app fst snd].
    split; [split; [intros _; repeat split; left; discriminate | reflexivity] |].
    split; [| split; [discriminate | split; discriminate]].
    intros _. split; [| now split].
    intro H. apply sort_values_month_desc_nil in H. discriminate.
Qed.

(** X22.  After a successful combination the summary always has its
    [current_month] entry, a month of the combined frame: the frame is never
    empty then. *)
Theorem summary_after_combine
    (fluid_price price : Q) (evm : list Dune.EvmRow * bool * option string)
    (solana : list Solana.Monthly.MonthlyRow * bool * option string)
    (combined : list Processor.ExpenseRecord) (error : option string) :
  Processor.combine_all_expenses fluid_price evm solana = (combined, price, true, error) ->
  combined <> []
  /\ exists m,
       dict_get (Processor.get_summary_metrics combined) "current_month" =
         Some (Processor.Timestamp m)
       /\ In m (map Processor.month combined).
Proof.
  intro Hrun. destruct evm as [[evm_df es] ee]. destruct solana as [[sol_df ss] se].
  assert (Hne : combined <> []).
  { unfold Processor.combine_all_expenses in Hrun.
    destruct es; cbn [negb] in Hrun; [| discriminate].
    destruct ss; cbn [negb] in Hrun; [| discriminate].
    destruct (Processor.normalize_evm_data evm_df fluid_price ++
              Processor.normalize_solana_data sol_df fluid_price) as [| r rest] eqn:Hcat;
      [discriminate |].
    injection Hrun as <- _ _. intro H. apply sort_values_month_desc_nil in H. discriminate. }
  split; [exact Hne |].
  destruct combined as [| r rest]; [contradiction |].
  exists (Processor.max_month r rest). split; [reflexivity |].
  destruct (max_month_fold rest (Processor.month r)) as (_ & _ & Hmem).
  fold (Processor.max_month r rest) in Hmem.
  cbn [map In]. destruct Hmem as [-> | Hin]; [now left | now right].
Qed.

(** The theorem on the sample frames. *)
Lemma summary_after_combine_witness :
  exists m,
    dict_get (Processor.get_summary_metrics
                (fst (fst (fst (Processor.combine_all_expenses (3 # 10)
                                  ([Sample.ethereum_may; Sample.polygon_june], true, None)
                                  (Sample.solana_monthly, true, None))))))
      "current_month" = Some (Processor.Timestamp m).
Proof.
  destruct (summary_after_combine (3 # 10) (3 # 10)
              ([Sample.ethereum_may; Sample.polygon_june], true, None)
              (Sample.solana_monthly, true, None)
              (fst (fst (fst (Processor.combine_all_expenses (3 # 10)
                                ([Sample.ethereum_may; Sample.polygon_june], true, None)
                                (Sample.solana_monthly, true, None)))))
              None eq_refl) as (_ & m & Hm & _).
  now exists m.
Defined.

Lemma Zsum_perm (l l' : list Z) : Permutation l l' -> Zsum l = Zsum l'.
Proof.
  unfold Zsum. induction 1; cbn [fold_right]; lia.
Qed.

Lemma Zsum_app (l l' : list Z) : Zsum (l ++ l') = Zsum l + Zsum l'.
Proof.
  unfold Zsum. induction l as [| x l IH]; cbn [app fold_right]; lia.
Qed.

(** X23.  Combining keeps the transaction total: the total that the summary
    reports for a successfully combined frame is the int64 sum of the claim
    counts of the EVM rows and the transfer counts of the Solana rows; the
    order the sort leaves the records in has no influence on it. *)
Theorem summary_transactions_after_combine
    (fluid_price price : Q) (evm_df : list Dune.EvmRow)
    (solana_df : list Solana.Monthly.MonthlyRow) (evm_error sol_error error : option string)
    (combined : list Processor.ExpenseRecord) :
  Processor.combine_all_expenses fluid_price
    (evm_df, true, evm_error) (solana_df, true, sol_error) =
    (combined, price, true, error) ->
  dict_get (Processor.get_summary_metrics combined) "total_transactions" =
    Some (Processor.Int
            (Processor.wrap64
               (Zsum (map Dune.total_claims evm_df)
                + Zsum (map Solana.Monthly.num_transactions solana_df)))).
Proof.
  intro Hrun. unfold Processor.combine_all_expenses in Hrun. cbn [negb] in Hrun.
  rewrite normalize_evm_data_map, normalize_solana_data_map in Hrun.
  destruct (map (Processor.normalize_evm_row fluid_price) evm_df ++
            map (Processor.normalize_solana_row fluid_price) solana_df)
    as [| r rest] eqn:Hcat; [discriminate |].
  injection Hrun as <- _ _.
  destruct (sort_values_month_desc_sorted (r :: rest)) as [Hperm _].
  destruct (Processor.sort_values_month_desc (r :: rest)) as [| c cs] eqn:Hsort.
  { apply Permutation_sym, Permutation_nil in Hperm. discriminate. }
  rewrite <- Hcat in Hperm.
  cbn [Processor.get_summary_metrics dict_get String.eqb Ascii.eqb Bool.eqb].
  do 3 f_equal.
  rewrite <- (Zsum_perm _ _ (Permutation_map Processor.num_transactions Hperm)).
  rewrite map_app, Zsum_app, !map_map. reflexivity.
Qed.

(** The theorem on the sample frames: 14 EVM claims and 3 Solana transfers. *)
Lemma summary_transactions_after_combine_witness :
  dict_get (Processor.get_summary_metrics
              (fst (fst (fst (Processor.combine_all_expenses (3 # 10)
                                ([Sample.ethereum_may; Sample.polygon_june], true, None)
                                (Sample.solana_monthly, true, None))))))
    "total_transactions" = Some (Processor.Int 17).
Proof.
  exact (summary_transactions_after_combine (3 # 10) (3 # 10)
           [Sample.ethereum_may; Sample.polygon_june] Sample.solana_monthly
           None None None _ eq_refl).
Defined.

(** The int64 sum wraps: two records of 2^62 transactions each add up to
    -2^63. *)
Example summary_transactions_wrap :
  dict_get (Processor.get_summary_metrics
              [ Processor.mk_record (mk_datetime 2024 5 1 0 0 0 0) "ethereum" "EVM" "FLUID"
                  1 1 (2 ^ 62);
                Processor.mk_record (mk_datetime 2024 5 1 0 0 0 0) "base" "EVM" "FLUID"
                  1 1 (2 ^ 62) ])
    "total_transactions" = Some (Processor.Int (- 2 ^ 63)).
Proof. reflexivity. Qed.

(** X25.  No USDC reaches the canonical records: whatever the fetch returned, every
    record that [normalize_solana_data] makes of the monthly frame has a
    token other than USDC, the chain solana, the source Solana and a count
    of at least one transfer. *)
Theorem solana_records_without_usdc
    (fetched : list Solana.Transaction * bool * option string) (fluid_price : Q) :
  forall r,
    In r (Processor.normalize_solana_data
            (fst (fst (Solana.aggregate_fetched fetched))) fluid_price) ->
    Processor.token r <> "USDC"
    /\ Processor.chain r = "solana"
    /\ Processor.source r = "Solana"
    /\ 1 <= Processor.num_transactions r.
Proof.
  intros r Hr. rewrite normalize_solana_data_map in Hr.
  apply in_map_iff in Hr. destruct Hr as (row & <- & Hrow).
  destruct fetched as [[txs success] error].
  rewrite aggregate_fetched_rows in Hrow.
  destruct (success && negb (Solana.mixed_zones (filter Solana.is_expense txs)));
    [| destruct Hrow].
  apply groupby_row_origin in Hrow. destruct Hrow as (t & Ht & ->).
  apply filter_In in Ht. destruct Ht as [Ht Hexp].
  destruct (is_expense_true _ Hexp) as [_ Husdc].
  cbn. repeat split; [exact Husdc |].
  assert (Hmem : In t (Solana.group_rows (filter Solana.is_expense txs)
                         (Solana.group_key t))).
  { unfold Solana.group_rows. apply filter_In. split.
    - apply filter_In. now split.
    - unfold Solana.key_eqb. now rewrite key_compare_refl. }
  destruct (Solana.group_rows (filter Solana.is_expense txs) (Solana.group_key t));
    [destruct Hmem | cbn [List.length]; lia].
Qed.

(** The theorem on the sample history: its only record is the WSOL one. *)
Lemma solana_records_without_usdc_witness :
  map Processor.token
    (Processor.normalize_solana_data
       (fst (fst (Solana.aggregate_fetched
                    (fst (Solana.fetch_all_transactions 5 Sample.world None)))))
       (3 # 10)) = ["WSOL"]
  /\ forall r,
       In r (Processor.normalize_solana_data
               (fst (fst (Solana.aggregate_fetched
                            (fst (Solana.fetch_all_transactions 5 Sample.world None)))))
               (3 # 10)) ->
       Processor.token r <> "USDC".
Proof.
  split; [vm_compute; reflexivity |].
  intros r Hr.
  exact (proj1 (solana_records_without_usdc _ _ r Hr)).
Defined.

(** ** From the EVM fetch to the combined frame *)

(** X26.  A successful EVM fetch never hands back an empty frame (for a cache file
    that the loader can read a frame from), and it leaves such a file; hence
    the combination of its frame with any successful Solana result succeeds,
    also with an empty Solana frame. *)
Theorem combine_after_dune_fetch
    (api_key : bool) (file file' : option (cache_file (list Dune.EvmRow)))
    (now now' : datetime) (dune_api : result (list Dune.QueryRow))
    (evm_df : list Dune.EvmRow) (evm_error : option string) :
  Dune.readable_file file ->
  Dune.fetch_dune_monthly_expenses api_key file now dune_api now' =
    ((evm_df, true, evm_error), file') ->
  evm_df <> []
  /\ Dune.readable_file file'
  /\ forall fluid_price solana_df sol_error,
       snd (fst (Processor.combine_all_expenses fluid_price
                   (evm_df, true, evm_error) (solana_df, true, sol_error))) = true.
Proof.
  intros Hfile Hrun.
  assert (Hne : evm_df <> [] /\ Dune.readable_file file').
  { unfold Dune.fetch_dune_monthly_expenses in Hrun.
    destruct (Dune.load_cache file now) as [[cached_df last_updated] |] eqn:Hload.
    - injection Hrun as <- _ <-. split; [| exact Hfile].
      now apply dune_load_cache_some in Hload.
    - destruct api_key; cbn [negb] in Hrun; [| discriminate].
      destruct dune_api as [[| row rest] | msg]; try discriminate.
      destruct (Dune.build_frame (row :: rest)) as [df | msg] eqn:Hdf; [| discriminate].
      injection Hrun as <- _ <-.
      apply build_frame_ok, Forall2_length in Hdf.
      destruct df as [| e df]; [discriminate |]. split; [discriminate | exact I]. }
  destruct Hne as [Hne Hfile']. split; [exact Hne |]. split; [exact Hfile' |].
  intros fluid_price solana_df sol_error.
  unfold Processor.combine_all_expenses. cbn [negb].
  rewrite normalize_evm_data_map.
  destruct evm_df as [| e evm_df]; [contradiction | reflexivity].
Qed.

(** The theorem on the two-row sample result, combined with an empty Solana
    frame. *)
Lemma combine_after_dune_fetch_witness :
  exists evm_df,
    fst (Dune.fetch_dune_monthly_expenses true None (Sample.may_2024 31 8)
           (Ok Sample.query_rows) (Sample.may_2024 31 8)) = (evm_df, true, None)
    /\ snd (fst (Processor.combine_all_expenses (3 # 10)
                   (evm_df, true, None) ([], true, Some "No transactions found"))) = true.
Proof.
  eexists. split; [reflexivity |].
  refine (proj2 (proj2 (combine_after_dune_fetch true None _ (Sample.may_2024 31 8)
                          (Sample.may_2024 31 8) (Ok Sample.query_rows) _ None I eq_refl))
            _ _ _).
Defined.

(** The failure invariant of the Solana fetch on the sample upstream whose
    page 2 is down. *)
Lemma fetch_all_transactions_no_partial_witness :
  fst (fst (fst (Solana.fetch_all_transactions 5 Sample.world_page_2_down None))) = []
  /\ snd (Solana.fetch_all_transactions 5 Sample.world_page_2_down None) = None.
Proof.
  exact (fetch_all_transactions_no_partial 5 Sample.world_page_2_down None eq_refl).
Defined.
